(** * OpenVPN-manager: the client life cycle of [service.py] and its HTTP front end

    A shallow embedding of [src/service.py] (Easy-RSA orchestration, profile
    rendering, the block-list file) and of the authentication dependency of
    [src/api/dependencies.py] / [src/api.py] with the routes that use it.

    Conventions of the model.
    - Python [str] is [string]; a character stands for the code point of the
      same number, so texts range over code points 0..255.
    - The file system is a finite map from path strings to file contents.
      Directories are implicit, and permission or disk errors are left out:
      the only I/O error is reading a file that is not there.
    - Easy-RSA is an external program: whether it can be started, its effect
      on the file system and its exit status are a parameter of the model
      ([spawn]).
    - Files are read in text mode: [read_text] gives the stored text with
      every CR LF and lone CR turned into LF.
    - The logger is a list of records; DEBUG records are dropped, as the
      logger's level is INFO unless the DEBUG environment variable is set. *)

From Stdlib Require Import ZArith Ascii String DecimalString.
From stdpp Require Import base gmap strings list.

Open Scope Z_scope.

(** ** Python string primitives *)

Module Py.

Definition LF : ascii := "010"%char.
Definition nl : string := String LF "".

(** [str.isspace] on one character, for code points below 256. *)
Definition isspace (c : ascii) : bool :=
  match c with
  | "009" | "010" | "011" | "012" | "013"
  | "028" | "029" | "030" | "031" | " " | "133" | "160" => true
  | _ => false
  end%char.

(** The one-character line boundaries of [str.splitlines]
    (the pair CR LF is handled by [splitlines] itself). *)
Definition is_linebreak (c : ascii) : bool :=
  match c with
  | "010" | "011" | "012" | "013" | "028" | "029" | "030" | "133" => true
  | _ => false
  end%char.

(** [s.lstrip()], [s.rstrip()], [s.strip()] with no argument. *)
Fixpoint lstrip (s : string) : string :=
  match s with
  | String c r => if isspace c then lstrip r else s
  | EmptyString => EmptyString
  end.

Fixpoint rstrip (s : string) : string :=
  match s with
  | String c r =>
      match rstrip r with
      | EmptyString => if isspace c then EmptyString else String c EmptyString
      | r' => String c r'
      end
  | EmptyString => EmptyString
  end.

Definition strip (s : string) : string := lstrip (rstrip s).

(** A text made of white space only ([s.isspace()] or [s == ""]). *)
Fixpoint all_space (s : string) : bool :=
  match s with
  | EmptyString => true
  | String c r => isspace c && all_space r
  end.

(** [s.splitlines()]: the lines of [s] without their line breaks; a final
    line break does not open a further, empty line. *)
Fixpoint splitlines (s : string) : list string :=
  match s with
  | EmptyString => []
  | String c r =>
      if is_linebreak c then
        match c, r with
        | "013"%char, String "010"%char r' => EmptyString :: splitlines r'
        | _, _ => EmptyString :: splitlines r
        end
      else
        match splitlines r with
        | [] => [String c EmptyString]
        | l :: ls => String c l :: ls
        end
  end.

(** A text without any line boundary. *)
Fixpoint single_line (s : string) : bool :=
  match s with
  | EmptyString => true
  | String c r => negb (is_linebreak c) && single_line r
  end.

(** [sep.join(parts)]. *)
Fixpoint join (sep : string) (parts : list string) : string :=
  match parts with
  | [] => EmptyString
  | [p] => p
  | p :: ps => p +:+ sep +:+ join sep ps
  end.

(** [s.startswith(p)] and [s.endswith(p)]. *)
Fixpoint startswith (s p : string) {struct p} : bool :=
  match p, s with
  | EmptyString, _ => true
  | String a p', String b s' => if decide (a = b) then startswith s' p' else false
  | String _ _, EmptyString => false
  end.

Definition endswith (s p : string) : bool :=
  startswith (String.rev s) (String.rev p).

(** What text mode gives on reading: CR LF and a lone CR become LF. *)
Fixpoint universal_newlines (s : string) : string :=
  match s with
  | EmptyString => EmptyString
  | String c r =>
      if decide (c = "013"%char) then
        String LF
          match r with
          | String c' r' =>
              if decide (c' = LF) then universal_newlines r' else universal_newlines r
          | EmptyString => EmptyString
          end
      else String c (universal_newlines r)
  end.

(** The text has a NUL character in it. *)
Definition has_nul (s : string) : bool :=
  bool_decide ("000"%char ∈ String.list_ascii_of_string s).

(** [x in xs] for a list of strings. *)
Definition contains (x : string) (xs : list string) : bool :=
  bool_decide (x ∈ xs).

(** [str(n)] for an [int]. *)
Definition str_int (n : Z) : string := NilZero.string_of_int (Z.to_int n).

End Py.

(** ** [pathlib] on POSIX paths

    A path is kept as the string [str(path)]. *)

Module Pathlib.

(** [s.split(sep)] for a one-character separator. *)
Fixpoint split (sep : ascii) (s : string) : list string :=
  match s with
  | EmptyString => [EmptyString]
  | String c r =>
      if decide (c = sep) then EmptyString :: split sep r
      else match split sep r with
           | [] => [String c EmptyString]
           | p :: ps => String c p :: ps
           end
  end.

(** The components of a path: empty and ["."] components are dropped. *)
Definition parts (s : string) : list string :=
  filter (λ p, p ≠ "" ∧ p ≠ ".") (split "/" s).

(** The root: ["/"], or ["//"] for exactly two leading slashes. *)
Definition root (s : string) : string :=
  if Py.startswith s "//" && negb (Py.startswith s "///") then "//"
  else if Py.startswith s "/" then "/"
  else "".

(** [str(Path(s))]. *)
Definition Path (s : string) : string :=
  match root s, parts s with
  | EmptyString, [] => "."
  | r, ps => r +:+ Py.join "/" ps
  end.

(** [p / s]: an absolute right operand replaces the left one. *)
Definition joinpath (p s : string) : string :=
  if Py.startswith s "/" then Path s else Path (p +:+ "/" +:+ s).

(** [p.name]: the final component. *)
Definition name (p : string) : string := List.last (parts p) "".

End Pathlib.

Infix "</>" := Pathlib.joinpath (at level 40, left associativity).

(** ** The world: files, log records, spawned commands *)

Inductive Level := INFO | WARNING | ERROR.

#[global] Instance Level_eq_dec : EqDecision Level.
Proof. solve_decision. Defined.

Record World := mkWorld {
  fs : gmap string string;          (* path ↦ text of the file *)
  log : list (Level * string);      (* records emitted so far *)
  spawned : list (list string);     (* command lines run so far *)
}.

Record CompletedProcess := mkCompleted {
  returncode : Z;
  stdout : string;
  stderr : string;
}.

Inductive exn :=
  | CalledProcessError (rc : Z) (cmd : list string) (output err : option string)
  | FileNotFoundError (path : string)
  | RuntimeError (msg : string)
  | HTTPException (status_code : Z) (detail : string)
  | ValueError (msg : string)
  | OSError (msg : string).

(** What becomes of the launch of an external program: it ran to its end,
    with a completion record and the files as it left them, or it could not
    be started and [subprocess] raises ([FileNotFoundError] for a missing
    program or working directory, another [OSError] such as
    [PermissionError] for one that may not be run). *)
Inductive Launch :=
  | Completed (process : CompletedProcess) (files : gmap string string)
  | NotStarted (e : exn).

(** An external program as the model sees it: from its command line, the
    text fed to its standard input (if any) and the files before, to the
    outcome of its launch. *)
Definition Spawn : Type :=
  list string → option string → gmap string string → Launch.

#[global] Instance exn_eq_dec : EqDecision exn.
Proof. solve_decision. Defined.

Inductive Result (A : Type) :=
  | Return (a : A)
  | Raise (e : exn).
Arguments Return {A} a.
Arguments Raise {A} e.

(** A computation runs in a world and either returns or raises; what it
    did before raising stays done. *)
Definition IO (A : Type) : Type := World → Result A * World.

#[global] Instance IO_ret : MRet IO := λ A a w, (Return a, w).
#[global] Instance IO_bind : MBind IO := λ A B k m w,
  match m w with
  | (Return a, w') => k a w'
  | (Raise e, w') => (Raise e, w')
  end.
#[global] Instance IO_throw : MThrow exn IO := λ A e w, (Raise e, w).

(** [try: m except Exception as e: h e]. *)
Definition try_except {A} (m : IO A) (h : exn → IO A) : IO A := λ w,
  match m w with
  | (Return a, w') => (Return a, w')
  | (Raise e, w') => h e w'
  end.

(** [for x in xs: body x]. *)
Fixpoint for_each {A} (xs : list A) (body : A → IO unit) : IO unit :=
  match xs with
  | [] => mret tt
  | x :: xs' => body x ;; for_each xs' body
  end.

Definition when (b : bool) (m : IO unit) : IO unit := if b then m else mret tt.

Module Logger.
Definition emit (lvl : Level) (msg : string) : IO unit := λ w,
  (Return tt, mkWorld (fs w) (log w ++ [(lvl, msg)]) (spawned w)).
Definition info := emit INFO.
Definition warning := emit WARNING.
Definition error := emit ERROR.
End Logger.

(** File operations of [pathlib.Path] and [shutil]. *)
Module File.
Definition set_fs (f : gmap string string → gmap string string) : IO unit := λ w,
  (Return tt, mkWorld (f (fs w)) (log w) (spawned w)).

Definition exists_ (p : string) : IO bool := λ w,
  (Return (bool_decide (is_Some (fs w !! p))), w).

(** [p.read_text()]: the file is opened in text mode, so every CR LF and
    lone CR of the stored text comes back as LF. *)
Definition read_text (p : string) : IO string := λ w,
  match fs w !! p with
  | Some text => (Return (Py.universal_newlines text), w)
  | None => (Raise (FileNotFoundError p), w)
  end.

Definition write_text (p text : string) : IO unit := set_fs <[p := text]>.

(** [p.touch(exist_ok=True)]. *)
Definition touch (p : string) : IO unit :=
  e ← exists_ p; if e : bool then mret tt else write_text p "".

(** [p.unlink(missing_ok=True)]. *)
Definition unlink (p : string) : IO unit := set_fs (delete p).

(** [shutil.copy2(src, dst)], [dst] a file path: the content is copied as
    it is stored. *)
Definition copy2 (src dst : string) : IO unit := λ w,
  match fs w !! src with
  | Some content => write_text dst content w
  | None => (Raise (FileNotFoundError src), w)
  end.

(** [p.mkdir(parents=True, exist_ok=True)]: directories are implicit. *)
Definition mkdir (p : string) : IO unit := mret tt.
End File.

(** ** [service.py] *)

Module Service.

Import Py.

(** Paths (service.py, lines 32-39). *)
Definition BASE_DIR : string := Pathlib.Path "/etc/openvpn/server".
Definition EASYRSA_PATH : string := BASE_DIR </> "easy-rsa".
Definition EASYRSA_BIN : string := EASYRSA_PATH </> "easyrsa".
Definition OUTPUT_DIR : string := BASE_DIR </> "clients".
Definition BASE_OVPN_TEMPLATE : string := BASE_DIR </> "client-common.txt".
Definition TLS_KEY : string := BASE_DIR </> "tc.key".
Definition BLOCKLIST_PATH : string := BASE_DIR </> "blocked_clients.txt".
Definition CRL_PATH : string := BASE_DIR </> "crl.pem".

(** Lines 41-42, as functions of the path of the pre-shared key: the
    deployment chooses the trust mode through the name of that file. *)
Definition TLS_TAG (tls_key : string) : string :=
  if startswith (Pathlib.name tls_key) "tc" then "tls-crypt" else "tls-auth".
Definition ADD_KEY_DIRECTION (tls_key : string) : bool :=
  bool_decide (TLS_TAG tls_key = "tls-auth").

(** The rendering of lines 129-140 on file contents already read. *)
Definition embed_text (tag text : string) : string :=
  "<" +:+ tag +:+ ">" +:+ nl +:+ strip text +:+ nl +:+ "</" +:+ tag +:+ ">" +:+ nl.

Definition render (tls_key template ca cert key tls : string) : string :=
  let cfg := rstrip template +:+ nl in
  let cfg := cfg +:+ embed_text "ca" ca in
  let cfg := cfg +:+ embed_text "cert" cert in
  let cfg := cfg +:+ embed_text "key" key in
  let cfg := cfg +:+ embed_text (TLS_TAG tls_key) tls in
  if ADD_KEY_DIRECTION tls_key then cfg +:+ "key-direction 1" +:+ nl else cfg.

Section WithBackend.

(** Easy-RSA, the external program. *)
Variable spawn : Spawn.

(** The launch of a command by [subprocess]: an argument with a NUL
    character is refused with [ValueError] before anything is started;
    otherwise the program starts, or fails to, as the environment has it. *)
Definition launch (cmd : list string) (input : option string)
    (files : gmap string string) : Launch :=
  if existsb has_nul cmd then NotStarted (ValueError "embedded null byte")
  else spawn cmd input files.

(** [Popen(cmd, ...).communicate(input)] and [subprocess.run(cmd, ...)] up
    to the completion record: a launch that fails raises and leaves the
    world as it was. *)
Definition run_process (cmd : list string) (input : option string)
  : IO CompletedProcess := λ w,
  match launch cmd input (fs w) with
  | Completed p fs' => (Return p, mkWorld fs' (log w) (spawned w ++ [cmd]))
  | NotStarted e => (Raise e, w)
  end.

(** The [except subprocess.CalledProcessError] clause of [_run_easy_rsa]. *)
Definition on_called_process_error (e : exn) : IO unit :=
  match e with
  | CalledProcessError rc _ output err =>
      Logger.error ("Command failed with exit code " +:+ str_int rc) ;;
      when (from_option (λ o, bool_decide (o ≠ "")) false output)
           (Logger.error ("STDOUT: " +:+ default "" output)) ;;
      when (from_option (λ o, bool_decide (o ≠ "")) false err)
           (Logger.error ("STDERR: " +:+ default "" err)) ;;
      mthrow e
  | _ => mthrow e
  end.

Definition _run_easy_rsa (args : list string) : IO unit :=
  let cmd := EASYRSA_BIN :: args in
  try_except
    (if contains "build-client-full" args || contains "revoke" args then
       process ← run_process cmd (Some ("yes" +:+ nl));
       if decide (returncode process ≠ 0) then
         Logger.error ("Command failed with exit code "
                       +:+ str_int (returncode process)) ;;
         Logger.error ("STDOUT: " +:+ stdout process) ;;
         Logger.error ("STDERR: " +:+ stderr process) ;;
         mthrow (CalledProcessError (returncode process) cmd None None)
       else mret tt
     else
       result ← run_process cmd None;
       if decide (returncode result ≠ 0) then
         mthrow (CalledProcessError (returncode result) cmd
                   (Some (stdout result)) (Some (stderr result)))
       else mret tt)
    on_called_process_error.

Definition _refresh_crl : IO unit :=
  let src := EASYRSA_PATH </> "pki" </> "crl.pem" in
  present ← File.exists_ src;
  if present : bool then File.copy2 src CRL_PATH
  else mthrow (RuntimeError "crl.pem not found after gen-crl").

Definition embed (tag path : string) : IO string :=
  text ← File.read_text path; mret (embed_text tag text).

Definition generate_client (tls_key : string) (name : string) (password : bool)
  : IO string :=
  let build := ["build-client-full"; name] ++ (if password then [] else ["nopass"]) in
  _run_easy_rsa build ;;
  let pki := EASYRSA_PATH </> "pki" in
  text ← File.read_text BASE_OVPN_TEMPLATE;
  let template := rstrip text +:+ nl in
  let cfg := template in
  ca ← embed "ca" (pki </> "ca.crt");
  let cfg := cfg +:+ ca in
  cert ← embed "cert" (pki </> "issued" </> (name +:+ ".crt"));
  let cfg := cfg +:+ cert in
  key ← embed "key" (pki </> "private" </> (name +:+ ".key"));
  let cfg := cfg +:+ key in
  tls ← embed (TLS_TAG tls_key) tls_key;
  let cfg := cfg +:+ tls in
  let cfg := if ADD_KEY_DIRECTION tls_key
             then cfg +:+ "key-direction 1" +:+ nl else cfg in
  File.mkdir OUTPUT_DIR ;;
  let out := OUTPUT_DIR </> (name +:+ ".ovpn") in
  File.write_text out cfg ;;
  Logger.info ("Generated client configuration for " +:+ name +:+ ": " +:+ out) ;;
  mret out.

Definition unsuspend_client (name : string) : IO unit :=
  present ← File.exists_ BLOCKLIST_PATH;
  if present : bool then
    text ← File.read_text BLOCKLIST_PATH;
    let lines := filter (λ line, line ≠ name) (splitlines text) in
    File.write_text BLOCKLIST_PATH
      (join nl lines +:+ (if lines is [] then "" else nl)) ;;
    Logger.info ("Client " +:+ name +:+ " unsuspended")
  else mret tt.

Definition revoke_client (name : string) : IO unit :=
  _run_easy_rsa ["revoke"; name] ;;
  _run_easy_rsa ["gen-crl"] ;;
  _refresh_crl ;;
  let pki := EASYRSA_PATH </> "pki" in
  for_each ["issued"; "private"; "reqs"]
    (λ sub, File.unlink (pki </> sub </> (name +:+ ".crt"))) ;;
  File.unlink (OUTPUT_DIR </> (name +:+ ".ovpn")) ;;
  unsuspend_client name ;;
  Logger.info ("Revoked " +:+ name +:+ " and updated CRL").

Definition suspend_client (name : string) : IO unit :=
  File.touch BLOCKLIST_PATH ;;
  text ← File.read_text BLOCKLIST_PATH;
  let lines := splitlines text in
  when (contains name lines)
       (Logger.info ("Client " +:+ name +:+ " already suspended")) ;;
  File.write_text BLOCKLIST_PATH (join nl (lines ++ [name]) +:+ nl) ;;
  Logger.info ("Client " +:+ name +:+ " suspended (added to block-list)").

(** [list_blocked] prints the names; the model returns the list it prints
    (empty when it reports that nobody is suspended). *)
Definition list_blocked : IO (list string) :=
  present ← File.exists_ BLOCKLIST_PATH;
  blank ← (if present : bool
           then text ← File.read_text BLOCKLIST_PATH;
                mret (bool_decide (strip text = ""))
           else mret true);
  if blank : bool then
    Logger.info "No suspended clients" ;; mret []
  else
    text ← File.read_text BLOCKLIST_PATH;
    let blocked_clients := splitlines text in
    Logger.info ("Suspended clients: " +:+ join ", " blocked_clients) ;;
    mret blocked_clients.

End WithBackend.

End Service.

(** ** The HTTP front end: [api/dependencies.py], [api/routers/clients.py]
    (and the single-file variant [api.py], which declares the same
    dependency on every route) *)

Module Api.

Import Py.

Record Request := mkRequest {
  x_api_key : option string;      (* the X-API-Key header, if sent *)
}.

Record ClientRequest := mkClientRequest {
  cr_name : string;
  use_password : bool;
}.

Record ClientResponse := mkClientResponse {
  name : string;
  message : string;
  config_path : option string;
}.

(** FastAPI's [FileResponse], by the arguments it is built from. *)
Record FileResponse := mkFileResponse {
  path : string;
  filename : string;
  media_type : string;
}.

Record BlockedClientsResponse := mkBlocked {
  blocked_clients : list string;
}.

(** FastAPI's [APIKeyHeader(name="X-API-Key")] with its default
    [auto_error]: a missing or empty header is refused by the framework
    (the properties below do not depend on the status it answers with). *)
Definition api_key_header (request : Request) : IO string :=
  match x_api_key request with
  | Some key =>
      if decide (key = "") then mthrow (HTTPException 403 "Not authenticated")
      else mret key
  | None => mthrow (HTTPException 403 "Not authenticated")
  end.

Section WithSettings.

Variable spawn : Spawn.
Variable tls_key : string.
(** [settings.api_key] (or the environment variable OVPN_API_KEY). *)
Variable API_KEY : string.
(** Python's [str(e)] on an exception. *)
Variable str_exn : exn → string.

Definition get_api_key (api_key : string) : IO string :=
  if decide (API_KEY = "") then
    Logger.warning "No API_KEY set - running without authentication" ;;
    mret api_key
  else if decide (api_key ≠ API_KEY) then
    Logger.warning "Invalid API key attempt" ;;
    mthrow (HTTPException 401 "Invalid API Key")
  else mret api_key.

(** [Depends(get_api_key)]: the dependency is resolved, from the request,
    before the endpoint function is called. *)
Definition depends_get_api_key {A} (request : Request) (endpoint : IO A) : IO A :=
  api_key ← api_key_header request;
  _ ← get_api_key api_key;
  endpoint.

Definition create_client (client : ClientRequest) : IO ClientResponse :=
  Logger.info ("API request: create client " +:+ cr_name client) ;;
  try_except
    (config_path ← Service.generate_client spawn tls_key
                      (cr_name client) (use_password client);
     mret (mkClientResponse (cr_name client)
             ("Client " +:+ cr_name client +:+ " created successfully")
             (Some config_path)))
    (λ e,
      Logger.error ("Failed to create client " +:+ cr_name client +:+ ": "
                    +:+ str_exn e) ;;
      mthrow (HTTPException 500 (str_exn e))).

Definition revoke_client (name : string) : IO ClientResponse :=
  Logger.info ("API request: revoke client " +:+ name) ;;
  try_except
    (Service.revoke_client spawn name ;;
     mret (mkClientResponse name
             ("Client " +:+ name +:+ " revoked successfully") None))
    (λ e,
      Logger.error ("Failed to revoke client " +:+ name +:+ ": " +:+ str_exn e) ;;
      mthrow (HTTPException 500 (str_exn e))).

Definition suspend_client (name : string) : IO ClientResponse :=
  Logger.info ("API request: suspend client " +:+ name) ;;
  try_except
    (Service.suspend_client name ;;
     mret (mkClientResponse name
             ("Client " +:+ name +:+ " suspended successfully") None))
    (λ e,
      Logger.error ("Failed to suspend client " +:+ name +:+ ": " +:+ str_exn e) ;;
      mthrow (HTTPException 500 (str_exn e))).

Definition unsuspend_client (name : string) : IO ClientResponse :=
  Logger.info ("API request: unsuspend client " +:+ name) ;;
  try_except
    (Service.unsuspend_client name ;;
     mret (mkClientResponse name
             ("Client " +:+ name +:+ " unsuspended successfully") None))
    (λ e,
      Logger.error ("Failed to unsuspend client " +:+ name +:+ ": " +:+ str_exn e) ;;
      mthrow (HTTPException 500 (str_exn e))).

Definition list_blocked_clients : IO BlockedClientsResponse :=
  Logger.info "API request: list blocked clients" ;;
  try_except
    (present ← File.exists_ Service.BLOCKLIST_PATH;
     blocked ← (if present : bool
                then text ← File.read_text Service.BLOCKLIST_PATH;
                     mret (filter (λ line, line ≠ "") (splitlines text))
                else mret []);
     mret (mkBlocked blocked))
    (λ e,
      Logger.error ("Failed to list blocked clients: " +:+ str_exn e) ;;
      mthrow (HTTPException 500 (str_exn e))).

Definition download_client_config (name : string) : IO FileResponse :=
  Logger.info ("API request: download config for " +:+ name) ;;
  let config_path := Service.OUTPUT_DIR </> (name +:+ ".ovpn") in
  present ← File.exists_ config_path;
  if present : bool then
    mret (mkFileResponse config_path (name +:+ ".ovpn") "application/octet-stream")
  else
    Logger.error ("Config file for " +:+ name +:+ " not found") ;;
    mthrow (HTTPException 404 ("Config for " +:+ name +:+ " not found")).

(** The routes, each behind the dependency. *)
Definition POST_clients (request : Request) (client : ClientRequest) :=
  depends_get_api_key request (create_client client).
Definition DELETE_client (request : Request) (name : string) :=
  depends_get_api_key request (revoke_client name).
Definition POST_suspend (request : Request) (name : string) :=
  depends_get_api_key request (suspend_client name).
Definition POST_unsuspend (request : Request) (name : string) :=
  depends_get_api_key request (unsuspend_client name).
Definition GET_blocked (request : Request) :=
  depends_get_api_key request list_blocked_clients.
Definition GET_config (request : Request) (name : string) :=
  depends_get_api_key request (download_client_config name).

End WithSettings.

(** The outcome of a refused request, seen from the world [w] it came to:
    an HTTP error, the files and the record of spawned commands as they
    were, and nothing logged but, at most, the warning of the key check. *)
Definition refused {A} (w : World) (out : Result A * World) : Prop :=
  (∃ status detail, out.1 = Raise (HTTPException status detail))
  ∧ fs out.2 = fs w
  ∧ spawned out.2 = spawned w
  ∧ (log out.2 = log w
     ∨ log out.2 = log w ++ [(WARNING, "Invalid API key attempt")]).

(** An endpoint outcome set against the outcome of the orchestrator call it
    wraps: the response built from what the call returned, in the world the
    call left; or, when the call raised [e], an [HTTPException] of status 500
    whose detail is [str(e)] of that same [e], with one ERROR record added to
    the log the call left. *)
Definition wraps_in_500 {A B} (str_exn : exn → string) (respond : A → B)
    (service : Result A * World) (out : Result B * World) : Prop :=
  match service.1 with
  | Return a => out = (Return (respond a), service.2)
  | Raise e =>
      ∃ msg,
        out = (Raise (HTTPException 500 (str_exn e)),
               mkWorld (fs service.2) (log service.2 ++ [(ERROR, msg)])
                       (spawned service.2))
  end.

End Api.

(** ** The reading of the specification used for comparison *)

Module Spec.

(** A call of the block-list interface. *)
Inductive Op := Suspend (name : string) | Unsuspend (name : string).

(** The block-list as an insertion-ordered set: a first-time add goes to
    the end, a repeated add changes nothing, a remove drops the name. *)
Definition apply (names : list string) (op : Op) : list string :=
  match op with
  | Suspend x => if bool_decide (x ∈ names) then names else names ++ [x]
  | Unsuspend x => filter (λ y, y ≠ x) names
  end.

Definition replay (ops : list Op) : list string := foldl apply [] ops.

(** A malformed client name: empty, or with a path separator or a newline. *)
Definition malformed (name : string) : bool :=
  bool_decide (name = "")
  || bool_decide ("/"%char ∈ String.list_ascii_of_string name)
  || bool_decide (Py.LF ∈ String.list_ascii_of_string name).

End Spec.

(** Running a sequence of block-list calls of [service.py]. *)
Definition run_op (op : Spec.Op) : IO unit :=
  match op with
  | Spec.Suspend x => Service.suspend_client x
  | Spec.Unsuspend x => Service.unsuspend_client x
  end.

Definition run_ops (ops : list Spec.Op) : IO unit := for_each ops run_op.

(** ** An in-memory PKI backend and sample worlds, to run the operations *)

Module Fixtures.

Definition pki : string := Service.EASYRSA_PATH </> "pki".
Definition crt (name : string) : string := pki </> "issued" </> (name +:+ ".crt").
Definition key (name : string) : string := pki </> "private" </> (name +:+ ".key").
Definition ovpn (name : string) : string := Service.OUTPUT_DIR </> (name +:+ ".ovpn").

Definition exit (rc : Z) (files : gmap string string) : Launch :=
  Completed (mkCompleted rc "" "") files.

(** A backend in the manner of Easy-RSA that keeps the files of a revoked
    client in place: [build-client-full] issues a certificate and a key
    unless the name is taken, [revoke] succeeds on an issued name,
    [gen-crl] writes the list. *)
Definition easyrsa : Spawn := λ cmd input files,
  match cmd with
  | _ :: verb :: args =>
      if decide (verb = "gen-crl") then
        exit 0 (<[pki </> "crl.pem" := "CRL"]> files)
      else match args with
      | name :: _ =>
          if decide (verb = "build-client-full") then
            if decide (is_Some (files !! crt name)) then exit 1 files
            else exit 0 (<[key name := "KEY " +:+ name]>
                          (<[crt name := "CERT " +:+ name]> files))
          else if decide (verb = "revoke") then
            if decide (is_Some (files !! crt name)) then exit 0 files
            else exit 1 files
          else exit 1 files
      | [] => exit 1 files
      end
  | _ => exit 1 files
  end.

(** A backend whose [gen-crl] reports success without writing the list. *)
Definition forgetful : Spawn := λ cmd input files, exit 0 files.

(** A machine on which Easy-RSA is not installed. *)
Definition absent : Spawn := λ cmd input files,
  NotStarted (FileNotFoundError Service.EASYRSA_BIN).

Definition world (files : gmap string string) : World := mkWorld files [] [].

Definition empty : World := world ∅.

(** A server with its template, CA certificate and pre-shared key. *)
Definition server : World :=
  world (<[Service.BASE_OVPN_TEMPLATE := "T" +:+ Py.nl]>
         (<[pki </> "ca.crt" := "X"]>
         (<[Service.TLS_KEY := "X"]> ∅))).

(** The same server after "alice" was issued and suspended. *)
Definition with_alice : World :=
  world (<[Service.BLOCKLIST_PATH := "alice" +:+ Py.nl]>
         (<[ovpn "alice" := "PROFILE"]>
         (<[key "alice" := "KEY alice"]>
         (<[crt "alice" := "CERT alice"]> (fs server))))).

Definition str_exn (e : exn) : string :=
  match e with
  | CalledProcessError rc _ _ _ => "exit status " +:+ Py.str_int rc
  | FileNotFoundError p => "No such file: " +:+ p
  | RuntimeError msg => msg
  | HTTPException _ detail => detail
  | ValueError msg => msg
  | OSError msg => msg
  end.

End Fixtures.

(** ** The PKI backend as [service.py] drives it *)

Module Backend.

Section WithBackend.

Variable spawn : Spawn.

(** What [_run_easy_rsa] feeds to the program's standard input. *)
Definition input (args : list string) : option string :=
  if Py.contains "build-client-full" args || Py.contains "revoke" args
  then Some ("yes" +:+ Py.nl) else None.

(** The launch of Easy-RSA on the given arguments and files. *)
Definition run (args : list string) (files : gmap string string) : Launch :=
  Service.launch spawn (Service.EASYRSA_BIN :: args) (input args) files.

(** The two backend steps of a revocation, [revoke name] then [gen-crl]:
    one of them runs and exits with a non-zero status, or both run and
    succeed, in both cases with the files as the backend left them; or one
    of them could not be started. *)
Inductive Revocation :=
  | BackendFailed (files : gmap string string)
  | BackendDone (files : gmap string string)
  | BackendNotStarted (e : exn) (files : gmap string string).

Definition revocation (name : string) (files : gmap string string) : Revocation :=
  match run ["revoke"; name] files with
  | NotStarted e => BackendNotStarted e files
  | Completed p1 files1 =>
      if decide (returncode p1 ≠ 0) then BackendFailed files1
      else
        match run ["gen-crl"] files1 with
        | NotStarted e => BackendNotStarted e files1
        | Completed p2 files2 =>
            if decide (returncode p2 ≠ 0) then BackendFailed files2
            else BackendDone files2
        end
  end.

End WithBackend.

(** Where Easy-RSA writes the revocation list. *)
Definition crl_src : string := Service.EASYRSA_PATH </> "pki" </> "crl.pem".

End Backend.

(** ** The block-list as a list of lines *)

Module Blocklist.

(** The lines of the block-list file of a world; none when there is no file. *)
Definition lines (w : World) : list string :=
  Py.splitlines (default "" (fs w !! Service.BLOCKLIST_PATH)).

(** What one call does to those lines, as read off [suspend_client]
    (always [lines + [name]]) and [unsuspend_client] (the comprehension
    [line != name]). *)
Definition step (ls : list string) (op : Spec.Op) : list string :=
  match op with
  | Spec.Suspend x => ls ++ [x]
  | Spec.Unsuspend x => filter (λ line, line ≠ x) ls
  end.

Definition replay_from (ls : list string) (ops : list Spec.Op) : list string :=
  foldl step ls ops.

(** The name an operation carries. *)
Definition op_name (op : Spec.Op) : string :=
  match op with Spec.Suspend x | Spec.Unsuspend x => x end.

(** No call of the sequence suspends a name that is on the list, as the
    list stands when the call is made. *)
Fixpoint suspends_absent (ls : list string) (ops : list Spec.Op) : bool :=
  match ops with
  | [] => true
  | op :: ops' =>
      match op with
      | Spec.Suspend x => negb (bool_decide (x ∈ ls))
      | Spec.Unsuspend _ => true
      end && suspends_absent (step ls op) ops'
  end.

End Blocklist.

(** A computation only adds to the record of spawned commands. *)
Definition monotone {A} (m : IO A) : Prop :=
  ∀ w r w', m w = (r, w') → ∃ more, spawned w' = spawned w ++ more.

(** * Properties *)

(** ** Running the monad *)

Lemma bind_run {A B} (m : IO A) (k : A → IO B) (w : World) :
  (m ≫= k) w =
  match m w with
  | (Return a, w') => k a w'
  | (Raise e, w') => (Raise e, w')
  end.
Proof. reflexivity. Qed.

Lemma bind_returns {A B} (m : IO A) (k : A → IO B) w a w' :
  m w = (Return a, w') → (m ≫= k) w = k a w'.
Proof. intros H. rewrite bind_run, H. reflexivity. Qed.

Lemma bind_raises {A B} (m : IO A) (k : A → IO B) w e w' :
  m w = (Raise e, w') → (m ≫= k) w = (Raise e, w').
Proof. intros H. rewrite bind_run, H. reflexivity. Qed.

Ltac io_unfold :=
  repeat progress
    (unfold File.touch, File.copy2, File.write_text, File.unlink, File.mkdir,
       File.set_fs, File.exists_, File.read_text,
       Logger.info, Logger.warning, Logger.error, Logger.emit, when, try_except;
     unfold mbind, mret, mthrow, IO_bind, IO_ret, IO_throw;
     cbn [fs log spawned for_each]).

(** ** [_run_easy_rsa] *)

Section ServiceProperties.

Context (spawn : Spawn).

(** A run that exits with status 0 returns; the files are those the
    program left, and nothing is logged. *)
Lemma run_easy_rsa_returns args w p files' :
  Backend.run spawn args (fs w) = Completed p files' →
  returncode p = 0 →
  Service._run_easy_rsa spawn args w =
    (Return tt, mkWorld files' (log w) (spawned w ++ [Service.EASYRSA_BIN :: args])).
Proof.
  unfold Backend.run, Backend.input, Service._run_easy_rsa, Service.run_process.
  intros Hrun Hrc. io_unfold.
  destruct (Py.contains "build-client-full" args || Py.contains "revoke" args);
    rewrite Hrun; cbn [fs log spawned];
    (destruct (decide (returncode p ≠ 0)) as [Hne|_]; [by destruct Hne | done]).
Qed.

(** A run that exits with another status raises [CalledProcessError];
    the files are those the program left. *)
Lemma run_easy_rsa_raises args w p files' :
  Backend.run spawn args (fs w) = Completed p files' →
  returncode p ≠ 0 →
  ∃ output err records,
    Service._run_easy_rsa spawn args w =
      (Raise (CalledProcessError (returncode p) (Service.EASYRSA_BIN :: args) output err),
       mkWorld files' (log w ++ records) (spawned w ++ [Service.EASYRSA_BIN :: args])).
Proof.
  unfold Backend.run, Backend.input, Service._run_easy_rsa, Service.run_process.
  intros Hrun Hrc.
  destruct (Py.contains "build-client-full" args || Py.contains "revoke" args).
  - exists None, None. eexists. io_unfold. rewrite Hrun. cbn [fs log spawned].
    destruct (decide (returncode p ≠ 0)) as [_|Hz]; [|by destruct Hz].
    unfold Service.on_called_process_error. io_unfold. cbn.
    rewrite <- !(assoc_L app). reflexivity.
  - exists (Some (stdout p)), (Some (stderr p)).
    exists ([(ERROR, "Command failed with exit code " +:+ Py.str_int (returncode p))]
            ++ (if bool_decide (stdout p ≠ "") then [(ERROR, "STDOUT: " +:+ stdout p)] else [])
            ++ (if bool_decide (stderr p ≠ "") then [(ERROR, "STDERR: " +:+ stderr p)] else [])).
    io_unfold. rewrite Hrun. cbn [fs log spawned].
    destruct (decide (returncode p ≠ 0)) as [_|Hz]; [|by destruct Hz].
    unfold Service.on_called_process_error. io_unfold. cbn.
    do 2 case_bool_decide; cbn; rewrite <- ?(assoc_L app); reflexivity.
Qed.

(** A launch that fails raises what [subprocess] raises; no file changes
    and no command is recorded as run. *)
Lemma run_easy_rsa_not_started args w e :
  Backend.run spawn args (fs w) = NotStarted e →
  ∃ w',
    Service._run_easy_rsa spawn args w = (Raise e, w')
    ∧ fs w' = fs w
    ∧ spawned w' = spawned w.
Proof.
  unfold Backend.run, Backend.input, Service._run_easy_rsa, Service.run_process.
  intros Hrun.
  destruct (Py.contains "build-client-full" args || Py.contains "revoke" args);
    io_unfold; rewrite Hrun; unfold Service.on_called_process_error;
    (destruct e as [rc cmd [output|] [err|]| | | | |]; io_unfold;
     cbn [from_option]; repeat case_bool_decide; by eexists).
Qed.

(** An argument with a NUL character stops the launch. *)
Lemma run_with_nul args files :
  existsb Py.has_nul args = true →
  Backend.run spawn args files = NotStarted (ValueError "embedded null byte").
Proof.
  intros Hnul. unfold Backend.run, Service.launch. cbn [existsb].
  by rewrite Hnul, orb_true_r.
Qed.

(** ** [revoke_client] and the backend's failures *)

Lemma refresh_crl_missing w :
  fs w !! Backend.crl_src = None →
  Service._refresh_crl w = (Raise (RuntimeError "crl.pem not found after gen-crl"), w).
Proof.
  intros Hnone. unfold Service._refresh_crl. io_unfold.
  fold Backend.crl_src. rewrite Hnone.
  rewrite bool_decide_eq_false_2; [done | by intros [? ?]].
Qed.

Lemma refresh_crl_copies w crl :
  fs w !! Backend.crl_src = Some crl →
  Service._refresh_crl w =
    (Return tt, mkWorld (<[Service.CRL_PATH := crl]> (fs w)) (log w) (spawned w)).
Proof.
  intros Hsome. unfold Service._refresh_crl. io_unfold.
  fold Backend.crl_src. rewrite Hsome.
  rewrite bool_decide_eq_true_2 by (by eexists).
  rewrite ?Hsome. reflexivity.
Qed.


(** C6 (a missing revocation list is a hard error). When both backend
    steps succeed but Easy-RSA's [pki/crl.pem] is not there afterwards,
    [revoke_client] raises [RuntimeError]; it does not go on to the
    cleanup, so the files are as the backend left them. *)
Theorem revoke_client_missing_crl_raises name w files' :
  Backend.revocation spawn name (fs w) = Backend.BackendDone files' →
  files' !! Backend.crl_src = None →
  ∃ w',
    Service.revoke_client spawn name w
      = (Raise (RuntimeError "crl.pem not found after gen-crl"), w')
    ∧ fs w' = files'.
Proof.
  unfold Backend.revocation. intros Hrev Hnone.
  destruct (Backend.run spawn ["revoke"; name] (fs w)) as [p1 files1|e1] eqn:Hrun1;
    [|discriminate].
  destruct (decide (returncode p1 ≠ 0)) as [Hrc1|Hrc1]; [discriminate|].
  apply dec_stable in Hrc1.
  pose proof (run_easy_rsa_returns _ _ _ _ Hrun1 Hrc1) as Hret1.
  set (w1 := mkWorld files1 (log w) _) in Hret1.
  destruct (Backend.run spawn ["gen-crl"] files1) as [p2 files2|e2] eqn:Hrun2;
    [|discriminate].
  destruct (decide (returncode p2 ≠ 0)) as [Hrc2|Hrc2]; [discriminate|].
  apply dec_stable in Hrc2. injection Hrev as <-.
  pose proof (run_easy_rsa_returns ["gen-crl"] w1 _ _ Hrun2 Hrc2) as Hret2.
  eexists. split.
  - unfold Service.revoke_client.
    erewrite bind_returns; [|exact Hret1].
    erewrite bind_returns; [|exact Hret2].
    erewrite bind_raises; [reflexivity|].
    by apply refresh_crl_missing.
  - reflexivity.
Qed.

End ServiceProperties.

(** ** Strings *)

Section Strings.

Import Py.

Lemma app_empty_r (s : string) : s +:+ "" = s.
Proof. induction s as [|c s IH]; [done|]. unfold String.app in *. cbn. by rewrite IH. Qed.

Lemma app_assoc_str (a b c : string) : (a +:+ b) +:+ c = a +:+ b +:+ c.
Proof.
  induction a as [|x a IH]; [done|]. unfold String.app in *. cbn. by rewrite IH.
Qed.

Lemma app_cons (c : ascii) (a b : string) : String c a +:+ b = String c (a +:+ b).
Proof. reflexivity. Qed.

Lemma rev_app_app (a acc : string) : String.rev_app a acc = String.rev a +:+ acc.
Proof.
  unfold String.rev. revert acc.
  induction a as [|x a IH]; intros acc; [done|].
  cbn. rewrite (IH (String x "")), IH, app_assoc_str. reflexivity.
Qed.

Lemma rev_app_distr (a b : string) :
  String.rev (a +:+ b) = String.rev b +:+ String.rev a.
Proof.
  induction a as [|x a IH].
  - cbn. by rewrite app_empty_r.
  - rewrite app_cons. unfold String.rev in *. cbn.
    rewrite (rev_app_app (a +:+ b)), (rev_app_app a).
    unfold String.rev. rewrite IH, app_assoc_str. reflexivity.
Qed.

(** A text that ends with [suffix] is recognised by [endswith]. *)
Lemma endswith_app (s suffix : string) : endswith (s +:+ suffix) suffix = true.
Proof.
  unfold endswith. rewrite rev_app_distr.
  generalize (String.rev suffix) as p, (String.rev s) as r.
  induction p as [|x p IH]; intros r; [done|].
  rewrite app_cons. cbn. rewrite decide_True by done. apply IH.
Qed.

(** ** [splitlines] and [join] *)

Lemma splitlines_cons (c : ascii) (r : string) :
  splitlines (String c r) =
    if is_linebreak c then
      match c, r with
      | "013"%char, String "010"%char r' => "" :: splitlines r'
      | _, _ => "" :: splitlines r
      end
    else
      match splitlines r with
      | [] => [String c ""]
      | l :: ls => String c l :: ls
      end.
Proof. reflexivity. Qed.

Lemma splitlines_single_line (s : string) :
  Forall (λ l, single_line l = true) (splitlines s).
Proof.
  cut (Forall (λ l, single_line l = true) (splitlines s)
       ∧ ∀ c, Forall (λ l, single_line l = true) (splitlines (String c s))).
  { tauto. }
  induction s as [|c s [IH1 IH2]].
  - split; [constructor|]. intros c. rewrite splitlines_cons.
    destruct (is_linebreak c) eqn:Hc.
    + destruct c as [[] [] [] [] [] [] [] []]; by repeat constructor.
    + repeat constructor. cbn [single_line]. by rewrite Hc.
  - split; [apply IH2|]. intros c'. specialize (IH2 c).
    rewrite (splitlines_cons c'). destruct (is_linebreak c') eqn:Hc'.
    + assert (Forall (λ l, single_line l = true) ("" :: splitlines (String c s)))
        by (by constructor).
      assert (Forall (λ l, single_line l = true) ("" :: splitlines s))
        by (by constructor).
      destruct c' as [[] [] [] [] [] [] [] []]; try done;
        destruct c as [[] [] [] [] [] [] [] []]; done.
    + destruct (splitlines (String c s)) as [|l ls].
      * repeat constructor. cbn [single_line]. by rewrite Hc'.
      * apply Forall_cons in IH2 as [Hl Hls]. constructor; [|done].
        cbn [single_line]. by rewrite Hc', Hl.
Qed.

Lemma splitlines_first_line (l rest : string) :
  single_line l = true →
  splitlines (l +:+ nl +:+ rest) = l :: splitlines rest.
Proof.
  induction l as [|c l IH]; intros Hl; [done|].
  cbn [single_line] in Hl. apply andb_true_iff in Hl as [Hc Hl].
  rewrite app_cons, splitlines_cons.
  apply negb_true_iff in Hc. rewrite Hc, IH by done. reflexivity.
Qed.

(** Writing lines out one per line and reading them back is the identity,
    for lines without line breaks. *)
Lemma splitlines_join (ls : list string) :
  Forall (λ l, single_line l = true) ls →
  splitlines (join nl ls +:+ (if ls is [] then "" else nl)) = ls.
Proof.
  induction ls as [|l ls IH]; intros Hls; [done|].
  apply Forall_cons in Hls as [Hl Hls].
  destruct ls as [|l2 ls].
  - cbn [join]. rewrite <- (app_empty_r nl), splitlines_first_line by done. done.
  - change (join nl (l :: l2 :: ls)) with (l +:+ nl +:+ join nl (l2 :: ls)).
    rewrite !app_assoc_str, splitlines_first_line by done.
    f_equal. by apply IH.
Qed.

(** ** Reading in text mode *)

Lemma universal_newlines_cons (c : ascii) (r : string) :
  universal_newlines (String c r) =
    if decide (c = "013"%char) then
      String LF
        match r with
        | String c' r' =>
            if decide (c' = LF) then universal_newlines r' else universal_newlines r
        | EmptyString => EmptyString
        end
    else String c (universal_newlines r).
Proof. reflexivity. Qed.

Lemma splitlines_break (c : ascii) (r : string) :
  is_linebreak c = true → c ≠ "013"%char →
  splitlines (String c r) = "" :: splitlines r.
Proof.
  intros Hc Hcr. rewrite splitlines_cons, Hc.
  destruct c as [[] [] [] [] [] [] [] []]; done.
Qed.

Lemma splitlines_cr (c : ascii) (r : string) :
  c ≠ LF → splitlines (String "013"%char (String c r)) = "" :: splitlines (String c r).
Proof.
  intros Hc. rewrite (splitlines_cons "013"%char).
  destruct c as [[] [] [] [] [] [] [] []]; done.
Qed.

(** The lines of a text do not depend on how its line ends are spelt:
    reading in text mode keeps them. *)
Lemma splitlines_universal_newlines (s : string) :
  splitlines (universal_newlines s) = splitlines s.
Proof.
  cut (splitlines (universal_newlines s) = splitlines s
       ∧ ∀ c, splitlines (universal_newlines (String c s)) = splitlines (String c s)).
  { tauto. }
  induction s as [|c s [IH1 IH2]].
  - split; [done|]. intros c. rewrite universal_newlines_cons.
    destruct (decide (c = "013"%char)) as [->|]; [done|].
    rewrite (splitlines_cons c (universal_newlines "")). by rewrite splitlines_cons.
  - split; [apply IH2|]. intros c'. specialize (IH2 c).
    rewrite (universal_newlines_cons c').
    destruct (decide (c' = "013"%char)) as [->|Hcr].
    + destruct (decide (c = LF)) as [->|Hlf].
      * rewrite splitlines_break by done. by rewrite IH1.
      * rewrite splitlines_break by done. rewrite splitlines_cr by done. by rewrite IH2.
    + rewrite !(splitlines_cons c'). rewrite IH2.
      destruct (is_linebreak c') eqn:Hbreak; [|done].
      generalize (universal_newlines (String c s)). intros u.
      destruct c' as [[] [] [] [] [] [] [] []]; try done;
        destruct u as [|[[] [] [] [] [] [] [] []] u]; done.
Qed.

End Strings.

(** ** The block-list file *)

Section Blocklist.

Import Py.

(** [suspend_client] always returns, and always appends the name. *)
Lemma suspend_client_run name w :
  let lines := splitlines (default "" (fs w !! Service.BLOCKLIST_PATH)) in
  Service.suspend_client name w =
    (Return tt,
     mkWorld (<[Service.BLOCKLIST_PATH := join nl (lines ++ [name]) +:+ nl]> (fs w))
             (log w
              ++ (if contains name lines
                  then [(INFO, "Client " +:+ name +:+ " already suspended")] else [])
              ++ [(INFO, "Client " +:+ name +:+ " suspended (added to block-list)")])
             (spawned w)).
Proof.
  cbv zeta. unfold Service.suspend_client. io_unfold.
  destruct (fs w !! Service.BLOCKLIST_PATH) as [text|] eqn:Hfile;
    cbn [from_option]; unfold id.
  - rewrite bool_decide_eq_true_2 by (by eexists). rewrite Hfile.
    rewrite !splitlines_universal_newlines.
    destruct (contains name (splitlines text)); cbn;
      rewrite <- ?(assoc_L app); reflexivity.
  - rewrite bool_decide_eq_false_2 by (by intros [? ?]). cbn [fs].
    rewrite lookup_insert_eq. rewrite !splitlines_universal_newlines.
    destruct (contains name (splitlines "")); cbn;
      rewrite insert_insert_eq, <- ?(assoc_L app); reflexivity.
Qed.

(** [unsuspend_client] always returns; it rewrites the file if there is one. *)
Lemma unsuspend_client_run name w :
  Service.unsuspend_client name w =
    match fs w !! Service.BLOCKLIST_PATH with
    | Some text =>
        let kept := filter (λ line, line ≠ name) (splitlines text) in
        (Return tt,
         mkWorld (<[Service.BLOCKLIST_PATH :=
                      join nl kept +:+ (if kept is [] then "" else nl)]> (fs w))
                 (log w ++ [(INFO, "Client " +:+ name +:+ " unsuspended")])
                 (spawned w))
    | None => (Return tt, w)
    end.
Proof.
  unfold Service.unsuspend_client. io_unfold.
  destruct (fs w !! Service.BLOCKLIST_PATH) as [text|] eqn:Hfile.
  - rewrite bool_decide_eq_true_2 by (by eexists). rewrite Hfile.
    rewrite !splitlines_universal_newlines. reflexivity.
  - rewrite bool_decide_eq_false_2 by (by intros [? ?]). reflexivity.
Qed.

(** C10 (what [unsuspend_client] writes). On an existing block-list file
    the call returns and rewrites the file so that its lines are the former
    lines without those equal to the name, every occurrence removed and the
    others in their order; the new text ends with a newline exactly when a
    line is left. *)
Theorem unsuspend_client_removes_every_occurrence name w text :
  fs w !! Service.BLOCKLIST_PATH = Some text →
  let kept := filter (λ line, line ≠ name) (splitlines text) in
  ∃ w' text',
    Service.unsuspend_client name w = (Return tt, w')
    ∧ fs w' = <[Service.BLOCKLIST_PATH := text']> (fs w)
    ∧ text' = join nl kept +:+ (if kept is [] then "" else nl)
    ∧ splitlines text' = kept
    ∧ (name ∉ splitlines text')
    ∧ (endswith text' nl = true ↔ kept ≠ []).
Proof.
  intros Hfile kept. rewrite unsuspend_client_run, Hfile. cbn zeta. fold kept.
  eexists _, _. split; [reflexivity|]. split; [reflexivity|]. split; [reflexivity|].
  assert (splitlines (join nl kept +:+ (if kept is [] then "" else nl)) = kept) as Hlines.
  { apply splitlines_join, Forall_forall. intros l [_ Hl]%list_elem_of_filter.
    revert l Hl. apply Forall_forall, splitlines_single_line. }
  split; [exact Hlines|]. split.
  - rewrite Hlines. unfold kept. rewrite list_elem_of_filter. tauto.
  - destruct kept as [|l ls]; [done|]. by rewrite endswith_app.
Qed.

End Blocklist.

(** ** The record of spawned commands only grows *)

Create HintDb monotone.

Section Monotone.

Context (spawn : Spawn).

Lemma monotone_ret {A} (a : A) : monotone (mret a : IO A).
Proof. intros w r w' [= <- <-]. exists []. by rewrite app_nil_r. Qed.

Lemma monotone_throw {A} (e : exn) : monotone (mthrow e : IO A).
Proof. intros w r w' [= <- <-]. exists []. by rewrite app_nil_r. Qed.

Lemma monotone_bind {A B} (m : IO A) (k : A → IO B) :
  monotone m → (∀ a, monotone (k a)) → monotone (m ≫= k).
Proof.
  intros Hm Hk w r w'. rewrite bind_run.
  destruct (m w) as [[a|e] w1] eqn:Hmw; intros Hrun.
  - destruct (Hm _ _ _ Hmw) as [more1 H1], (Hk a _ _ _ Hrun) as [more2 H2].
    exists (more1 ++ more2). by rewrite H2, H1, (assoc_L app).
  - injection Hrun as <- <-. eauto.
Qed.

Lemma monotone_try {A} (m : IO A) (h : exn → IO A) :
  monotone m → (∀ e, monotone (h e)) → monotone (try_except m h).
Proof.
  intros Hm Hh w r w'. unfold try_except.
  destruct (m w) as [[a|e] w1] eqn:Hmw; intros Hrun.
  - injection Hrun as <- <-. eauto.
  - destruct (Hm _ _ _ Hmw) as [more1 H1], (Hh e _ _ _ Hrun) as [more2 H2].
    exists (more1 ++ more2). by rewrite H2, H1, (assoc_L app).
Qed.

Lemma monotone_emit lvl msg : monotone (Logger.emit lvl msg).
Proof. intros w r w' [= <- <-]. exists []. by rewrite app_nil_r. Qed.

Lemma monotone_set_fs f : monotone (File.set_fs f).
Proof. intros w r w' [= <- <-]. exists []. by rewrite app_nil_r. Qed.

Lemma monotone_exists p : monotone (File.exists_ p).
Proof. intros w r w' [= <- <-]. exists []. by rewrite app_nil_r. Qed.

Lemma monotone_read_text p : monotone (File.read_text p).
Proof.
  intros w r w'. unfold File.read_text.
  destruct (fs w !! p); intros [= <- <-]; exists []; by rewrite app_nil_r.
Qed.

Lemma monotone_copy2 src dst : monotone (File.copy2 src dst).
Proof.
  intros w r w'. unfold File.copy2.
  destruct (fs w !! src); intros [= <- <-]; exists []; by rewrite app_nil_r.
Qed.

Lemma monotone_run_process cmd input : monotone (Service.run_process spawn cmd input).
Proof.
  intros w r w'. unfold Service.run_process.
  destruct (Service.launch spawn cmd input (fs w)); intros [= <- <-].
  - by eexists.
  - exists []. by rewrite app_nil_r.
Qed.

Lemma monotone_for_each {A} (xs : list A) (body : A → IO unit) :
  (∀ x, monotone (body x)) → monotone (for_each xs body).
Proof.
  intros Hbody. induction xs as [|x xs IH]; cbn [for_each].
  - apply monotone_ret.
  - apply monotone_bind; auto.
Qed.

End Monotone.

#[export] Hint Resolve monotone_ret monotone_throw monotone_emit monotone_set_fs
  monotone_exists monotone_read_text monotone_copy2 monotone_run_process : monotone.
#[export] Hint Extern 2 (monotone (_ ≫= _)) =>
  apply monotone_bind; [|intros ?] : monotone.
#[export] Hint Extern 2 (monotone (try_except _ _)) =>
  apply monotone_try; [|intros ?] : monotone.
#[export] Hint Extern 2 (monotone (for_each _ _)) =>
  apply monotone_for_each; intros ? : monotone.
#[export] Hint Extern 3 (monotone (if ?b then _ else _)) => destruct b : monotone.
#[export] Hint Extern 3 (monotone (match ?e with _ => _ end)) => destruct e : monotone.
#[export] Hint Unfold File.touch File.write_text File.unlink File.mkdir
  Logger.info Logger.warning Logger.error when
  Service._refresh_crl Service.embed Service.unsuspend_client Service.suspend_client
  Service.on_called_process_error Service._run_easy_rsa : monotone.

Ltac monotone := autounfold with monotone; auto 30 with monotone.

Section Validation.

Import Py.

Context (spawn : Spawn).

Lemma run_easy_rsa_spawns args w p files' :
  Backend.run spawn args (fs w) = Completed p files' →
  ∃ r w', Service._run_easy_rsa spawn args w = (r, w')
    ∧ spawned w' = spawned w ++ [Service.EASYRSA_BIN :: args].
Proof.
  intros Hrun. destruct (decide (returncode p = 0)) as [Hrc|Hrc].
  - eexists _, _. split; [by eapply run_easy_rsa_returns|done].
  - destruct (run_easy_rsa_raises _ _ _ _ _ Hrun Hrc) as (? & ? & ? & ->).
    eexists _, _. split; [reflexivity|done].
Qed.

(** An operation that starts with an Easy-RSA run has that command line
    next in the record of spawned commands, once the program has started. *)
Lemma run_easy_rsa_first {A} args (k : unit → IO A) w p files' :
  Backend.run spawn args (fs w) = Completed p files' →
  (∀ u, monotone (k u)) →
  ∃ r w' more, (Service._run_easy_rsa spawn args ≫= k) w = (r, w')
    ∧ spawned w' = spawned w ++ (Service.EASYRSA_BIN :: args) :: more.
Proof.
  intros Hstart Hk.
  destruct (run_easy_rsa_spawns args w p files' Hstart) as ([[]|e] & w1 & Hrun & Hspawned).
  - destruct (k () w1) as [r w'] eqn:Hrest.
    destruct (Hk _ _ _ _ Hrest) as [more Hmore].
    exists r, w', more. split; [by erewrite bind_returns|].
    by rewrite Hmore, Hspawned, <- (assoc_L app).
  - exists (Raise e), w1, []. split; [by erewrite bind_raises|done].
Qed.

(** An operation that starts with an Easy-RSA run ends there when the
    launch fails. *)
Lemma run_easy_rsa_first_not_started {A} args (k : unit → IO A) w e :
  Backend.run spawn args (fs w) = NotStarted e →
  ∃ w', (Service._run_easy_rsa spawn args ≫= k) w = (Raise e, w')
    ∧ fs w' = fs w
    ∧ spawned w' = spawned w.
Proof.
  intros Hstart.
  destruct (run_easy_rsa_not_started spawn args w e Hstart) as (w' & Hrun & Hfs & Hspawned).
  exists w'. split; [by erewrite bind_raises|done].
Qed.

(** What [subprocess] is asked to launch for [revoke] and
    [build-client-full]: the command line with the name as given and "yes"
    on the standard input, unless the name has a NUL character. *)
Lemma run_on_name (verb name : string) (more : list string) files :
  verb = "revoke" ∨ verb = "build-client-full" →
  existsb has_nul more = false →
  Backend.run spawn (verb :: name :: more) files =
    if has_nul name then NotStarted (ValueError "embedded null byte")
    else spawn (Service.EASYRSA_BIN :: verb :: name :: more) (Some ("yes" +:+ nl)) files.
Proof.
  intros Hverb Hmore. unfold Backend.run, Service.launch, Backend.input.
  assert (contains "build-client-full" (verb :: name :: more)
          || contains "revoke" (verb :: name :: more) = true) as ->.
  { apply orb_true_iff. unfold contains. rewrite !bool_decide_eq_true.
    destruct Hverb as [-> | ->]; [right|left]; by left. }
  cbn [existsb]. rewrite Hmore, orb_false_r.
  assert (has_nul Service.EASYRSA_BIN = false) as -> by (vm_compute; reflexivity).
  assert (has_nul verb = false) as ->
    by (destruct Hverb as [-> | ->]; vm_compute; reflexivity).
  reflexivity.
Qed.

(** C5, as the code has it. No operation validates the client name. For
    every name (empty, with a path separator, with a newline, or any other)
    [suspend_client] returns having written the name to the block-list
    file and [unsuspend_client] returns. [revoke_client] and
    [generate_client] begin by handing the name as given to the launch of
    Easy-RSA: a name with a NUL character makes [subprocess] raise
    [ValueError], and a program that cannot be started makes it raise its
    error, in both cases with no file changed and no command run; otherwise
    Easy-RSA is run on the name as given. *)
Theorem names_are_not_validated tls_key name (password : bool) w :
  let revoke := ["revoke"; name] in
  let build := ["build-client-full"; name] ++ (if password then [] else ["nopass"]) in
  (∃ w', Service.suspend_client name w = (Return tt, w')
     ∧ fs w' !! Service.BLOCKLIST_PATH =
         Some (join nl (splitlines (default "" (fs w !! Service.BLOCKLIST_PATH))
                        ++ [name]) +:+ nl))
  ∧ (∃ w', Service.unsuspend_client name w = (Return tt, w'))
  ∧ Backend.run spawn revoke (fs w) =
      (if has_nul name then NotStarted (ValueError "embedded null byte")
       else spawn (Service.EASYRSA_BIN :: revoke) (Some ("yes" +:+ nl)) (fs w))
  ∧ match Backend.run spawn revoke (fs w) with
    | NotStarted e =>
        ∃ w', Service.revoke_client spawn name w = (Raise e, w')
          ∧ fs w' = fs w ∧ spawned w' = spawned w
    | Completed _ _ =>
        ∃ r w' more,
          Service.revoke_client spawn name w = (r, w')
          ∧ spawned w' = spawned w ++ (Service.EASYRSA_BIN :: revoke) :: more
    end
  ∧ Backend.run spawn build (fs w) =
      (if has_nul name then NotStarted (ValueError "embedded null byte")
       else spawn (Service.EASYRSA_BIN :: build) (Some ("yes" +:+ nl)) (fs w))
  ∧ match Backend.run spawn build (fs w) with
    | NotStarted e =>
        ∃ w', Service.generate_client spawn tls_key name password w = (Raise e, w')
          ∧ fs w' = fs w ∧ spawned w' = spawned w
    | Completed _ _ =>
        ∃ r w' more,
          Service.generate_client spawn tls_key name password w = (r, w')
          ∧ spawned w' = spawned w ++ (Service.EASYRSA_BIN :: build) :: more
    end.
Proof.
  cbv zeta. split; [|split; [|split; [|split; [|split]]]].
  - pose proof (suspend_client_run name w) as Hrun. cbv zeta in Hrun.
    eexists. split; [exact Hrun|]. cbn [fs]. apply lookup_insert_eq.
  - rewrite unsuspend_client_run. destruct (fs w !! Service.BLOCKLIST_PATH); eauto.
  - apply run_on_name; [by left|done].
  - unfold Service.revoke_client.
    destruct (Backend.run spawn ["revoke"; name] (fs w)) as [p files'|e] eqn:Hstart.
    + eapply run_easy_rsa_first; [exact Hstart|]. intros _. cbv zeta. monotone.
    + by apply run_easy_rsa_first_not_started.
  - apply run_on_name; [by right|by destruct password].
  - unfold Service.generate_client. cbv zeta.
    destruct (Backend.run spawn _ (fs w)) as [p files'|e] eqn:Hstart.
    + eapply run_easy_rsa_first; [exact Hstart|]. intros _. monotone.
    + by apply run_easy_rsa_first_not_started.
Qed.

End Validation.

(** C5, as stated, fails: the empty name is malformed, yet [suspend_client]
    returns on it and has written a block-list file that was not there. *)
Lemma suspend_client_accepts_empty_name :
  Spec.malformed "" = true
  ∧ fs Fixtures.empty !! Service.BLOCKLIST_PATH = None
  ∧ (Service.suspend_client "" Fixtures.empty).1 = Return tt
  ∧ fs (Service.suspend_client "" Fixtures.empty).2 !! Service.BLOCKLIST_PATH
      = Some Py.nl.
Proof. repeat split; vm_compute; reflexivity. Qed.

(** ** The block-list under repeated suspension *)

(** C1, on the code: suspending "alice" twice from an empty block-list
    notes that she is already suspended and appends her again; the file
    then lists her twice. *)
Lemma suspend_client_twice_lists_twice :
  let out := (Service.suspend_client "alice" ;; Service.suspend_client "alice" ;;
              Service.list_blocked) Fixtures.empty in
  out.1 = Return ["alice"; "alice"]
  ∧ fs out.2 !! Service.BLOCKLIST_PATH = Some ("alice" +:+ Py.nl +:+ "alice" +:+ Py.nl)
  ∧ (INFO, "Client alice already suspended") ∈ log out.2.
Proof.
  cbv zeta. split; [|split]; [vm_compute; reflexivity ..|].
  vm_compute. apply list_elem_of_In. cbn. tauto.
Qed.

(** C2, on the code: replaying [Suspend "alice"; Suspend "alice"] from an
    empty block-list, [list_blocked] reports two entries where the
    insertion-ordered set has one. *)
Lemma replay_suspend_twice_differs_from_set :
  let ops := [Spec.Suspend "alice"; Spec.Suspend "alice"] in
  ((run_ops ops ;; Service.list_blocked) Fixtures.empty).1 = Return ["alice"; "alice"]
  ∧ Spec.replay ops = ["alice"].
Proof. split; vm_compute; reflexivity. Qed.

(** ** Revocation clean-up *)

Section Cleanup.

Import Py.

Context (spawn : Spawn).

(** What a completed [revoke_client] has done to the files the backend left:
    the revocation list copied to the server, [NAME.crt] unlinked under
    [issued], [private] and [reqs], the profile unlinked, and the block-list,
    if there is one, rewritten without the name. *)
Lemma revoke_client_cleans_up name w files' crl :
  Backend.revocation spawn name (fs w) = Backend.BackendDone files' →
  files' !! Backend.crl_src = Some crl →
  let pki := Service.EASYRSA_PATH </> "pki" in
  let cleaned :=
    delete (Service.OUTPUT_DIR </> (name +:+ ".ovpn"))
      (delete (pki </> "reqs" </> (name +:+ ".crt"))
        (delete (pki </> "private" </> (name +:+ ".crt"))
          (delete (pki </> "issued" </> (name +:+ ".crt"))
            (<[Service.CRL_PATH := crl]> files')))) in
  ∃ w',
    Service.revoke_client spawn name w = (Return tt, w')
    ∧ fs w' =
        match cleaned !! Service.BLOCKLIST_PATH with
        | Some text =>
            let kept := filter (λ line, line ≠ name) (splitlines text) in
            <[Service.BLOCKLIST_PATH :=
                join nl kept +:+ (if kept is [] then "" else nl)]> cleaned
        | None => cleaned
        end.
Proof.
  intros Hrev Hcrl pki cleaned. unfold Backend.revocation in Hrev.
  destruct (Backend.run spawn ["revoke"; name] (fs w)) as [p1 files1|e1] eqn:Hrun1;
    [|discriminate].
  destruct (decide (returncode p1 ≠ 0)) as [Hrc1|Hrc1]; [discriminate|].
  apply dec_stable in Hrc1.
  pose proof (run_easy_rsa_returns spawn _ _ _ _ Hrun1 Hrc1) as Hret1.
  set (w1 := mkWorld files1 (log w) _) in Hret1.
  destruct (Backend.run spawn ["gen-crl"] files1) as [p2 files2|e2] eqn:Hrun2;
    [|discriminate].
  destruct (decide (returncode p2 ≠ 0)) as [Hrc2|Hrc2]; [discriminate|].
  apply dec_stable in Hrc2. injection Hrev as <-.
  pose proof (run_easy_rsa_returns spawn ["gen-crl"] w1 _ _ Hrun2 Hrc2) as Hret2.
  set (w2 := mkWorld files2 _ _) in Hret2.
  unfold Service.revoke_client. cbv zeta.
  erewrite bind_returns; [|exact Hret1].
  erewrite bind_returns; [|exact Hret2].
  erewrite bind_returns; [|by apply (refresh_crl_copies w2 crl)].
  erewrite bind_returns; [|reflexivity].
  erewrite bind_returns; [|reflexivity].
  rewrite bind_run, unsuspend_client_run. subst w2 w1. cbn [fs log spawned].
  fold pki. fold cleaned.
  destruct (cleaned !! Service.BLOCKLIST_PATH); eexists; split; reflexivity.
Qed.

End Cleanup.

(** C4, on the code: with a backend that leaves the files of a revoked
    client in place, a successful [revoke_client "alice"] deletes her
    certificate and her profile and clears her from the block-list, but her
    private key is still there: the clean-up unlinks [private/alice.crt]. *)
Lemma revoke_client_leaves_private_key :
  let out := Service.revoke_client Fixtures.easyrsa "alice" Fixtures.with_alice in
  out.1 = Return tt
  ∧ fs out.2 !! Fixtures.crt "alice" = None
  ∧ fs out.2 !! Fixtures.ovpn "alice" = None
  ∧ fs out.2 !! Service.BLOCKLIST_PATH = Some ""
  ∧ fs Fixtures.with_alice !! Fixtures.key "alice" = Some "KEY alice"
  ∧ fs out.2 !! Fixtures.key "alice" = Some "KEY alice".
Proof. cbv zeta. repeat split; vm_compute; reflexivity. Qed.

(** ** Rendering the profile *)

Section Render.

Import Py.

Context (spawn : Spawn).

(** [generate_client] writes [render] of the files it reads, each read as
    text: after a successful [build-client-full], with the template, the CA
    certificate, the client's certificate and key and the pre-shared key in
    place. *)
Lemma generate_client_writes_render tls_key name (password : bool) w p files'
    template ca cert key tls :
  Backend.run spawn (["build-client-full"; name] ++ (if password then [] else ["nopass"]))
    (fs w) = Completed p files' →
  returncode p = 0 →
  files' !! Service.BASE_OVPN_TEMPLATE = Some template →
  files' !! (Service.EASYRSA_PATH </> "pki" </> "ca.crt") = Some ca →
  files' !! (Service.EASYRSA_PATH </> "pki" </> "issued" </> (name +:+ ".crt")) = Some cert →
  files' !! (Service.EASYRSA_PATH </> "pki" </> "private" </> (name +:+ ".key")) = Some key →
  files' !! tls_key = Some tls →
  let out := Service.OUTPUT_DIR </> (name +:+ ".ovpn") in
  ∃ w', Service.generate_client spawn tls_key name password w = (Return out, w')
    ∧ fs w' =
        <[out := Service.render tls_key (universal_newlines template)
                   (universal_newlines ca) (universal_newlines cert)
                   (universal_newlines key) (universal_newlines tls)]> files'.
Proof.
  intros Hrun Hrc Htemplate Hca Hcert Hkey Htls out.
  pose proof (run_easy_rsa_returns spawn _ _ _ _ Hrun Hrc) as Hret.
  unfold Service.generate_client. cbv zeta.
  erewrite bind_returns; [|exact Hret].
  unfold Service.embed. io_unfold.
  repeat (first [rewrite Htemplate | rewrite Hca | rewrite Hcert
                | rewrite Hkey | rewrite Htls]; cbn [fs log spawned]).
  eexists. split; [reflexivity|]. cbn [fs]. unfold Service.render. cbv zeta.
  by destruct (Service.ADD_KEY_DIRECTION tls_key).
Qed.

(** C7 (round-trip render). Under the wrapped-trust mode, template "T\n"
    and content "X" for the four blocks render to exactly the template
    followed by the ca, cert, key and tls-crypt blocks, and nothing after. *)
Theorem render_wrapped_trust_example tls_key :
  Service.TLS_TAG tls_key = "tls-crypt" →
  Service.render tls_key ("T" +:+ nl) "X" "X" "X" "X" =
    "T" +:+ nl
    +:+ "<ca>" +:+ nl +:+ "X" +:+ nl +:+ "</ca>" +:+ nl
    +:+ "<cert>" +:+ nl +:+ "X" +:+ nl +:+ "</cert>" +:+ nl
    +:+ "<key>" +:+ nl +:+ "X" +:+ nl +:+ "</key>" +:+ nl
    +:+ "<tls-crypt>" +:+ nl +:+ "X" +:+ nl +:+ "</tls-crypt>" +:+ nl.
Proof.
  intros Hmode. unfold Service.render, Service.ADD_KEY_DIRECTION.
  rewrite Hmode. vm_compute. reflexivity.
Qed.

(** C8 (legacy trust mode). The profile is the template and the four
    blocks, the trust block last, followed by the line "key-direction 1"
    in the tls-auth mode and by nothing in the tls-crypt mode; it ends with
    that line exactly in the tls-auth mode. *)
Theorem key_direction_iff_legacy_mode tls_key template ca cert key tls :
  let profile := Service.render tls_key template ca cert key tls in
  let upto_trust :=
    rstrip template +:+ nl
    +:+ Service.embed_text "ca" ca
    +:+ Service.embed_text "cert" cert
    +:+ Service.embed_text "key" key
    +:+ Service.embed_text (Service.TLS_TAG tls_key) tls in
  (Service.TLS_TAG tls_key = "tls-auth" ∨ Service.TLS_TAG tls_key = "tls-crypt")
  ∧ profile =
      upto_trust +:+ (if decide (Service.TLS_TAG tls_key = "tls-auth")
                      then "key-direction 1" +:+ nl else "")
  ∧ (endswith profile ("key-direction 1" +:+ nl) = true
     ↔ Service.TLS_TAG tls_key = "tls-auth").
Proof.
  cbv zeta. unfold Service.render, Service.ADD_KEY_DIRECTION, Service.TLS_TAG.
  destruct (startswith (Pathlib.name tls_key) "tc").
  - rewrite bool_decide_eq_false_2, decide_False by done.
    split; [by right|]. split.
    + by rewrite !app_assoc_str, app_empty_r.
    + match goal with
      | |- endswith ?text ?line = true ↔ _ =>
          assert (endswith text line = false) as ->; [|done]
      end.
      unfold endswith, Service.embed_text. rewrite !rev_app_distr.
      vm_compute. reflexivity.
  - rewrite bool_decide_eq_true_2, decide_True by done.
    split; [by left|]. split.
    + by rewrite !app_assoc_str.
    + by rewrite endswith_app.
Qed.

End Render.

(** ** Authentication of the routes *)

Section Authentication.

Context (spawn : Spawn).
Context (tls_key API_KEY : string) (str_exn : exn → string).

(** With a key configured, a request that does not carry it never reaches
    the endpoint. *)
Lemma depends_refuses {A} (request : Api.Request) (endpoint : IO A) w :
  API_KEY ≠ "" →
  Api.x_api_key request ≠ Some API_KEY →
  Api.refused w (Api.depends_get_api_key API_KEY request endpoint w).
Proof.
  intros Hset Hwrong.
  unfold Api.refused, Api.depends_get_api_key, Api.api_key_header, Api.get_api_key.
  destruct (Api.x_api_key request) as [key|]; [|io_unfold; cbn; eauto 10].
  destruct (decide (key = "")); [io_unfold; cbn; eauto 10|].
  io_unfold. rewrite decide_False by done.
  rewrite decide_True by congruence.
  cbn. eauto 10.
Qed.

(** Without a configured key the check lets every key through. *)
Lemma depends_skips_when_unset {A} (request : Api.Request) (endpoint : IO A) key w :
  Api.x_api_key request = Some key →
  key ≠ "" →
  Api.depends_get_api_key "" request endpoint w =
    endpoint (mkWorld (fs w)
                (log w ++ [(WARNING, "No API_KEY set - running without authentication")])
                (spawned w)).
Proof.
  intros Hkey Hne.
  unfold Api.depends_get_api_key, Api.api_key_header, Api.get_api_key.
  rewrite Hkey, decide_False by done. io_unfold.
  rewrite decide_True by done. reflexivity.
Qed.

(** C9, as the code has it. When an API key is configured and the request
    does not present that key, each of the four mutating routes answers
    with an HTTP error and the orchestrator is not entered: no file
    changes, no command is spawned, and the log gains at most the warning
    of the key check. *)
Theorem mutating_routes_refuse_wrong_key request client name w :
  API_KEY ≠ "" →
  Api.x_api_key request ≠ Some API_KEY →
  Api.refused w (Api.POST_clients spawn tls_key API_KEY str_exn request client w)
  ∧ Api.refused w (Api.DELETE_client spawn API_KEY str_exn request name w)
  ∧ Api.refused w (Api.POST_suspend API_KEY str_exn request name w)
  ∧ Api.refused w (Api.POST_unsuspend API_KEY str_exn request name w).
Proof.
  intros Hset Hwrong.
  unfold Api.POST_clients, Api.DELETE_client, Api.POST_suspend, Api.POST_unsuspend.
  repeat split; by apply depends_refuses.
Qed.

End Authentication.

(** C9, as stated, fails: with no key configured, a caller presenting the
    key "intruder", which is not the configured (empty) key, has "alice"
    suspended. *)
Lemma unconfigured_key_admits_any_caller :
  let request := Api.mkRequest (Some "intruder") in
  let out := Api.POST_suspend "" Fixtures.str_exn request "alice" Fixtures.empty in
  Api.x_api_key request ≠ Some ""
  ∧ out.1 = Return (Api.mkClientResponse "alice" "Client alice suspended successfully" None)
  ∧ fs Fixtures.empty !! Service.BLOCKLIST_PATH = None
  ∧ fs out.2 !! Service.BLOCKLIST_PATH = Some ("alice" +:+ Py.nl).
Proof. cbv zeta. split; [discriminate|]. repeat split; vm_compute; reflexivity. Qed.

(** ** The theorems at concrete inputs *)


(** Revoking "alice" on a backend that reports success but writes no
    revocation list. *)
Lemma revoke_without_crl_raises :
  Backend.revocation Fixtures.forgetful "alice" (fs Fixtures.with_alice)
    = Backend.BackendDone (fs Fixtures.with_alice)
  ∧ fs Fixtures.with_alice !! Backend.crl_src = None
  ∧ ∃ w',
      Service.revoke_client Fixtures.forgetful "alice" Fixtures.with_alice
        = (Raise (RuntimeError "crl.pem not found after gen-crl"), w')
      ∧ fs w' = fs Fixtures.with_alice.
Proof.
  split; [vm_compute; reflexivity|]. split; [vm_compute; reflexivity|].
  apply (revoke_client_missing_crl_raises
           Fixtures.forgetful "alice" Fixtures.with_alice (fs Fixtures.with_alice));
    vm_compute; reflexivity.
Defined.

(** Unsuspending "alice", the only name on the block-list. *)
Lemma unsuspend_alice_empties_the_file :
  fs Fixtures.with_alice !! Service.BLOCKLIST_PATH = Some ("alice" +:+ Py.nl)
  ∧ ∃ w' text',
      Service.unsuspend_client "alice" Fixtures.with_alice = (Return tt, w')
      ∧ fs w' = <[Service.BLOCKLIST_PATH := text']> (fs Fixtures.with_alice)
      ∧ text' = Py.join Py.nl (filter (λ line, line ≠ "alice")
                                 (Py.splitlines ("alice" +:+ Py.nl)))
                +:+ (if filter (λ line, line ≠ "alice")
                          (Py.splitlines ("alice" +:+ Py.nl)) is []
                     then "" else Py.nl)
      ∧ Py.splitlines text'
          = filter (λ line, line ≠ "alice") (Py.splitlines ("alice" +:+ Py.nl))
      ∧ ("alice" ∉ Py.splitlines text')
      ∧ (Py.endswith text' Py.nl = true
         ↔ filter (λ line, line ≠ "alice") (Py.splitlines ("alice" +:+ Py.nl)) ≠ []).
Proof.
  split; [vm_compute; reflexivity|].
  apply (unsuspend_client_removes_every_occurrence
           "alice" Fixtures.with_alice ("alice" +:+ Py.nl)).
  vm_compute; reflexivity.
Defined.

(** The shipped key file, [tc.key], selects the tls-crypt mode. *)
Lemma render_with_the_shipped_key :
  Service.TLS_TAG Service.TLS_KEY = "tls-crypt"
  ∧ Service.render Service.TLS_KEY ("T" +:+ Py.nl) "X" "X" "X" "X" =
      "T" +:+ Py.nl
      +:+ "<ca>" +:+ Py.nl +:+ "X" +:+ Py.nl +:+ "</ca>" +:+ Py.nl
      +:+ "<cert>" +:+ Py.nl +:+ "X" +:+ Py.nl +:+ "</cert>" +:+ Py.nl
      +:+ "<key>" +:+ Py.nl +:+ "X" +:+ Py.nl +:+ "</key>" +:+ Py.nl
      +:+ "<tls-crypt>" +:+ Py.nl +:+ "X" +:+ Py.nl +:+ "</tls-crypt>" +:+ Py.nl.
Proof.
  split; [vm_compute; reflexivity|].
  apply (render_wrapped_trust_example Service.TLS_KEY). vm_compute; reflexivity.
Defined.

(** The key "secret" is configured and the caller presents "intruder". *)
Lemma wrong_key_is_refused :
  let request := Api.mkRequest (Some "intruder") in
  let client := Api.mkClientRequest "alice" false in
  "secret" ≠ ""
  ∧ Api.x_api_key request ≠ Some "secret"
  ∧ Api.refused Fixtures.server
      (Api.POST_clients Fixtures.easyrsa Service.TLS_KEY "secret" Fixtures.str_exn
         request client Fixtures.server)
  ∧ Api.refused Fixtures.server
      (Api.DELETE_client Fixtures.easyrsa "secret" Fixtures.str_exn
         request "alice" Fixtures.server)
  ∧ Api.refused Fixtures.server
      (Api.POST_suspend "secret" Fixtures.str_exn request "alice" Fixtures.server)
  ∧ Api.refused Fixtures.server
      (Api.POST_unsuspend "secret" Fixtures.str_exn request "alice" Fixtures.server).
Proof.
  cbv zeta. split; [discriminate|]. split; [discriminate|].
  apply (mutating_routes_refuse_wrong_key
           Fixtures.easyrsa Service.TLS_KEY "secret" Fixtures.str_exn
           (Api.mkRequest (Some "intruder")) (Api.mkClientRequest "alice" false)
           "alice" Fixtures.server); discriminate.
Defined.

(** * Further properties of the code *)

(** ** The block-list file, call by call *)

Section BlocklistCalls.

Import Py.

Lemma filter_absent (name : string) (ls : list string) :
  name ∉ ls → filter (λ line, line ≠ name) ls = ls.
Proof.
  induction ls as [|l ls IH]; intros Hname; [done|].
  apply not_elem_of_cons in Hname as [Hne Hname].
  rewrite filter_cons_True by done. by rewrite IH.
Qed.

Lemma filter_twice (name : string) (ls : list string) :
  filter (λ line, line ≠ name) (filter (λ line, line ≠ name) ls)
  = filter (λ line, line ≠ name) ls.
Proof.
  apply filter_absent. rewrite list_elem_of_filter. tauto.
Qed.

Lemma single_line_filter (name : string) (ls : list string) :
  Forall (λ l, single_line l = true) ls →
  Forall (λ l, single_line l = true) (filter (λ line, line ≠ name) ls).
Proof.
  rewrite !Forall_forall. intros Hls l [_ Hl]%list_elem_of_filter. auto.
Qed.

(** The text [unsuspend_client] writes reads back as the lines it kept. *)
Lemma splitlines_kept (name text : string) :
  let kept := filter (λ line, line ≠ name) (splitlines text) in
  splitlines (join nl kept +:+ (if kept is [] then "" else nl)) = kept.
Proof.
  cbv zeta. apply splitlines_join, single_line_filter, splitlines_single_line.
Qed.

Lemma splitlines_join_nonempty (ls : list string) :
  ls ≠ [] →
  Forall (λ l, single_line l = true) ls →
  splitlines (join nl ls +:+ nl) = ls.
Proof.
  intros Hne Hls. pose proof (splitlines_join ls Hls) as Hjoin.
  by destruct ls.
Qed.

(** The text [suspend_client] writes reads back as the former lines and the
    name, when the name has no line break in it. *)
Lemma splitlines_appended (name text : string) :
  single_line name = true →
  splitlines (join nl (splitlines text ++ [name]) +:+ nl) = splitlines text ++ [name].
Proof.
  intros Hname. apply splitlines_join_nonempty.
  - by destruct (splitlines text).
  - apply Forall_app. split; [apply splitlines_single_line|by constructor].
Qed.

(** X1. Without a block-list file [unsuspend_client] does nothing at all:
    it returns, and the world (files, log, spawned commands) is the same;
    in particular it does not create the file. *)
Theorem unsuspend_client_without_file name w :
  fs w !! Service.BLOCKLIST_PATH = None →
  Service.unsuspend_client name w = (Return tt, w).
Proof. intros Hnone. by rewrite unsuspend_client_run, Hnone. Qed.

(** X2. Unsuspending a name that is not on the block-list keeps the list:
    the rewritten file has the same lines in the same order, and no other
    file changes. *)
Theorem unsuspend_client_absent_name name w text :
  fs w !! Service.BLOCKLIST_PATH = Some text →
  name ∉ splitlines text →
  ∃ w',
    Service.unsuspend_client name w = (Return tt, w')
    ∧ Blocklist.lines w' = splitlines text
    ∧ ∀ path, path ≠ Service.BLOCKLIST_PATH → fs w' !! path = fs w !! path.
Proof.
  intros Hfile Habsent. rewrite unsuspend_client_run, Hfile. cbv zeta.
  eexists. split; [reflexivity|]. split.
  - unfold Blocklist.lines. cbn [fs]. rewrite lookup_insert_eq. cbn [from_option].
    unfold id. pose proof (splitlines_kept name text) as Hkept. cbv zeta in Hkept.
    rewrite Hkept. by apply filter_absent.
  - intros path Hpath. cbn [fs]. by rewrite lookup_insert_ne.
Qed.

(** X3. [unsuspend_client] is idempotent on the files: a second call
    writes the same text again. *)
Theorem unsuspend_client_twice name w :
  fs ((Service.unsuspend_client name ;; Service.unsuspend_client name) w).2
  = fs (Service.unsuspend_client name w).2.
Proof.
  rewrite bind_run, (unsuspend_client_run name w).
  destruct (fs w !! Service.BLOCKLIST_PATH) as [text|] eqn:Hfile; cbv beta iota zeta.
  - rewrite unsuspend_client_run. cbn [fs]. rewrite lookup_insert_eq. cbv zeta.
    pose proof (splitlines_kept name text) as Hkept. cbv zeta in Hkept.
    rewrite Hkept, filter_twice. cbn [fs snd]. by rewrite insert_insert_eq.
  - rewrite unsuspend_client_run, Hfile. reflexivity.
Qed.

(** For a name without a line break, [suspend_client] returns and appends
    the name to the lines. *)
Lemma suspend_client_lines name w :
  single_line name = true →
  ∃ w',
    Service.suspend_client name w = (Return tt, w')
    ∧ Blocklist.lines w' = Blocklist.lines w ++ [name]
    ∧ spawned w' = spawned w
    ∧ ∀ path, path ≠ Service.BLOCKLIST_PATH → fs w' !! path = fs w !! path.
Proof.
  intros Hname. pose proof (suspend_client_run name w) as Hrun. cbv zeta in Hrun.
  eexists. split; [exact Hrun|]. split; [|split; [done|]].
  - unfold Blocklist.lines. cbn [fs]. rewrite lookup_insert_eq. cbn [from_option].
    unfold id at 1. by apply splitlines_appended.
  - intros path Hpath. cbn [fs]. by rewrite lookup_insert_ne.
Qed.

(** X4. [suspend_client] appends: for a name without a line break the call
    returns, creates the file if need be, and the block-list then has its
    former lines followed by the name; no other file changes. *)
Theorem suspend_client_appends name w :
  single_line name = true →
  ∃ w',
    Service.suspend_client name w = (Return tt, w')
    ∧ Blocklist.lines w' = Blocklist.lines w ++ [name]
    ∧ ∀ path, path ≠ Service.BLOCKLIST_PATH → fs w' !! path = fs w !! path.
Proof.
  intros Hname.
  destruct (suspend_client_lines name w Hname) as (w' & Hrun & Hlines & _ & Hframe).
  eauto.
Qed.

(** Whatever the file, [unsuspend_client] returns and filters the lines. *)
Lemma unsuspend_client_lines name w :
  ∃ w',
    Service.unsuspend_client name w = (Return tt, w')
    ∧ Blocklist.lines w' = filter (λ line, line ≠ name) (Blocklist.lines w)
    ∧ spawned w' = spawned w
    ∧ ∀ path, path ≠ Service.BLOCKLIST_PATH → fs w' !! path = fs w !! path.
Proof.
  rewrite unsuspend_client_run. unfold Blocklist.lines.
  destruct (fs w !! Service.BLOCKLIST_PATH) as [text|] eqn:Hfile; cbv zeta.
  - eexists. split; [reflexivity|]. cbn [fs spawned]. split; [|split; [done|]].
    + rewrite lookup_insert_eq. cbn [from_option]. unfold id.
      apply (splitlines_kept name text).
    + intros path Hpath. by rewrite lookup_insert_ne.
  - exists w. rewrite Hfile. done.
Qed.

(** X5. Suspending and then unsuspending a name (without a line break)
    leaves the block-list with its former lines except those equal to the
    name; if the name was not on the list, the list is as before. *)
Theorem suspend_then_unsuspend name w :
  single_line name = true →
  ∃ w',
    (Service.suspend_client name ;; Service.unsuspend_client name) w = (Return tt, w')
    ∧ Blocklist.lines w' = filter (λ line, line ≠ name) (Blocklist.lines w)
    ∧ (name ∉ Blocklist.lines w → Blocklist.lines w' = Blocklist.lines w).
Proof.
  intros Hname.
  destruct (suspend_client_lines name w Hname) as (w1 & Hrun1 & Hlines1 & _).
  destruct (unsuspend_client_lines name w1) as (w' & Hrun2 & Hlines2 & _).
  exists w'. erewrite bind_returns; [|exact Hrun1].
  split; [exact Hrun2|].
  assert (Blocklist.lines w' = filter (λ line, line ≠ name) (Blocklist.lines w)) as ->.
  { rewrite Hlines2, Hlines1, filter_app.
    rewrite (filter_cons_False _ name []) by (intros Hne; by apply Hne).
    by rewrite filter_nil, app_nil_r. }
  split; [done|]. apply filter_absent.
Qed.

(** One call of a sequence. *)
Lemma run_op_lines op w :
  (∀ x, op = Spec.Suspend x → single_line x = true) →
  ∃ w',
    run_op op w = (Return tt, w')
    ∧ Blocklist.lines w' = Blocklist.step (Blocklist.lines w) op
    ∧ spawned w' = spawned w
    ∧ ∀ path, path ≠ Service.BLOCKLIST_PATH → fs w' !! path = fs w !! path.
Proof.
  intros Hname. destruct op as [x|x]; cbn [run_op Blocklist.step].
  - apply suspend_client_lines. by apply Hname.
  - apply unsuspend_client_lines.
Qed.

Lemma run_ops_lines ops w :
  (∀ x, Spec.Suspend x ∈ ops → single_line x = true) →
  ∃ w',
    run_ops ops w = (Return tt, w')
    ∧ Blocklist.lines w' = Blocklist.replay_from (Blocklist.lines w) ops
    ∧ spawned w' = spawned w
    ∧ ∀ path, path ≠ Service.BLOCKLIST_PATH → fs w' !! path = fs w !! path.
Proof.
  unfold run_ops, Blocklist.replay_from. revert w.
  induction ops as [|op ops IH]; intros w Hnames; cbn [for_each foldl].
  - exists w. done.
  - destruct (run_op_lines op w) as (w1 & Hrun1 & Hlines1 & Hspawned1 & Hframe1).
    { intros x ->. apply Hnames. by left. }
    destruct (IH w1) as (w' & Hrun & Hlines & Hspawned & Hframe).
    { intros x Hx. apply Hnames. by right. }
    exists w'. erewrite bind_returns; [|exact Hrun1].
    split; [exact Hrun|]. split; [by rewrite Hlines, Hlines1|].
    split; [congruence|]. intros path Hpath.
    by rewrite Hframe, Hframe1.
Qed.

(** X6. Every sequence of [suspend_client] and [unsuspend_client] calls
    (with names free of line breaks) returns, and the block-list then holds
    the list got by appending the name at each suspend and dropping every
    line equal to the name at each unsuspend. The calls spawn no command and
    change no file but the block-list. *)
Theorem run_ops_replays ops w :
  (∀ x, Spec.Suspend x ∈ ops → single_line x = true) →
  ∃ w',
    run_ops ops w = (Return tt, w')
    ∧ Blocklist.lines w' = Blocklist.replay_from (Blocklist.lines w) ops
    ∧ spawned w' = spawned w
    ∧ ∀ path, path ≠ Service.BLOCKLIST_PATH → fs w' !! path = fs w !! path.
Proof. apply run_ops_lines. Qed.

Lemma replay_from_apply ls ops :
  Blocklist.suspends_absent ls ops = true →
  Blocklist.replay_from ls ops = foldl Spec.apply ls ops.
Proof.
  unfold Blocklist.replay_from. revert ls.
  induction ops as [|op ops IH]; intros ls Habsent; [done|].
  cbn [Blocklist.suspends_absent] in Habsent.
  apply andb_true_iff in Habsent as [Hop Hrest].
  cbn [foldl]. rewrite IH by done. f_equal.
  destruct op as [x|x]; [|done]. cbn [Blocklist.step Spec.apply].
  apply negb_true_iff in Hop. by rewrite Hop.
Qed.

Lemma apply_NoDup ls op : NoDup ls → NoDup (Spec.apply ls op).
Proof.
  intros Hls. destruct op as [x|x]; cbn [Spec.apply].
  - case_bool_decide as Hx; [done|].
    apply NoDup_app. split; [done|]. split; [|apply NoDup_singleton].
    intros y Hy ->%list_elem_of_singleton. done.
  - by apply NoDup_filter.
Qed.

Lemma foldl_apply_NoDup ls ops : NoDup ls → NoDup (foldl Spec.apply ls ops).
Proof.
  revert ls. induction ops as [|op ops IH]; intros ls Hls; [done|].
  cbn [foldl]. by apply IH, apply_NoDup.
Qed.

(** X7. For suspended names without a line break: when no call of the
    sequence suspends a name that is on the list at that moment, the
    block-list behaves as the insertion-ordered set of the specification: it
    ends as that set's replay from the lines it started with (from no file:
    [Spec.replay ops]) and, if it had no duplicate line before, it has none
    after. *)
Theorem run_ops_set_semantics ops w :
  (∀ x, Spec.Suspend x ∈ ops → single_line x = true) →
  Blocklist.suspends_absent (Blocklist.lines w) ops = true →
  ∃ w',
    run_ops ops w = (Return tt, w')
    ∧ Blocklist.lines w' = foldl Spec.apply (Blocklist.lines w) ops
    ∧ (fs w !! Service.BLOCKLIST_PATH = None → Blocklist.lines w' = Spec.replay ops)
    ∧ (NoDup (Blocklist.lines w) → NoDup (Blocklist.lines w')).
Proof.
  intros Hnames Habsent.
  destruct (run_ops_lines ops w Hnames) as (w' & Hrun & Hlines & _).
  rewrite replay_from_apply in Hlines by done.
  exists w'. split; [done|]. split; [done|]. split.
  - intros Hnone. rewrite Hlines. unfold Blocklist.lines, Spec.replay.
    by rewrite Hnone.
  - intros Hnodup. rewrite Hlines. by apply foldl_apply_NoDup.
Qed.

End BlocklistCalls.

(** ** White space *)

Section Whitespace.

Import Py.

Lemma all_space_app (a b : string) :
  all_space (a +:+ b) = all_space a && all_space b.
Proof.
  induction a as [|c a IH]; [done|].
  rewrite app_cons. cbn [all_space]. by rewrite IH, andb_assoc.
Qed.

Lemma rstrip_cons (c : ascii) (r : string) :
  rstrip (String c r) =
    match rstrip r with
    | EmptyString => if isspace c then EmptyString else String c EmptyString
    | r' => String c r'
    end.
Proof. reflexivity. Qed.

Lemma rstrip_empty_iff (s : string) : rstrip s = "" ↔ all_space s = true.
Proof.
  induction s as [|c s IH]; [done|].
  rewrite rstrip_cons. cbn [all_space]. rewrite andb_true_iff, <- IH.
  destruct (rstrip s), (isspace c); intuition congruence.
Qed.

Lemma lstrip_empty_iff (s : string) : lstrip s = "" ↔ all_space s = true.
Proof.
  induction s as [|c s IH]; [done|].
  cbn [lstrip all_space]. destruct (isspace c); cbn [andb]; intuition congruence.
Qed.

Lemma all_space_rstrip (s : string) : all_space (rstrip s) = all_space s.
Proof.
  induction s as [|c s IH]; [done|].
  rewrite rstrip_cons. cbn [all_space]. rewrite <- IH.
  destruct (rstrip s) eqn:Hr; [|done].
  destruct (isspace c) eqn:Hc; cbn [all_space]; by rewrite ?Hc.
Qed.

(** [text.strip()] is empty exactly for a text of white space. *)
Lemma strip_empty_iff (s : string) : strip s = "" ↔ all_space s = true.
Proof. unfold strip. by rewrite lstrip_empty_iff, all_space_rstrip. Qed.

Lemma all_space_join (sep : string) (ls : list string) (l : string) :
  l ∈ ls → all_space l = false → all_space (join sep ls) = false.
Proof.
  intros Hin Hl. induction ls as [|x ls IH]; [by apply elem_of_nil in Hin|].
  apply elem_of_cons in Hin as [<-|Hin].
  - destruct ls as [|y ls]; [exact Hl|].
    change (join sep (l :: y :: ls)) with (l +:+ sep +:+ join sep (y :: ls)).
    by rewrite all_space_app, Hl.
  - destruct ls as [|y ls]; [by apply elem_of_nil in Hin|].
    change (join sep (x :: y :: ls)) with (x +:+ sep +:+ join sep (y :: ls)).
    rewrite !all_space_app, IH by done. by rewrite !andb_false_r.
Qed.

(** Reading in text mode keeps a text of white space one, and no other. *)
Lemma all_space_universal_newlines (s : string) :
  all_space (universal_newlines s) = all_space s.
Proof.
  cut (all_space (universal_newlines s) = all_space s
       ∧ ∀ c, all_space (universal_newlines (String c s)) = all_space (String c s)).
  { tauto. }
  induction s as [|c s [IH1 IH2]].
  - split; [done|]. intros c. rewrite universal_newlines_cons.
    by destruct (decide (c = "013"%char)) as [->|].
  - split; [apply IH2|]. intros c'. specialize (IH2 c).
    rewrite (universal_newlines_cons c').
    destruct (decide (c' = "013"%char)) as [->|Hcr].
    + destruct (decide (c = LF)) as [->|Hlf]; cbn [all_space].
      * by rewrite IH1.
      * by rewrite IH2.
    + cbn [all_space]. by rewrite IH2.
Qed.

Lemma strip_universal_newlines (s : string) :
  bool_decide (strip (universal_newlines s) = "") = bool_decide (strip s = "").
Proof.
  apply bool_decide_ext.
  by rewrite !strip_empty_iff, all_space_universal_newlines.
Qed.

End Whitespace.

(** ** Listing the block-list *)

Section Listing.

Import Py.

Lemma list_blocked_run w :
  Service.list_blocked w =
    match fs w !! Service.BLOCKLIST_PATH with
    | Some text =>
        if bool_decide (strip text = "") then
          (Return [], mkWorld (fs w) (log w ++ [(INFO, "No suspended clients")])
                              (spawned w))
        else
          (Return (splitlines text),
           mkWorld (fs w)
             (log w ++ [(INFO, "Suspended clients: " +:+ join ", " (splitlines text))])
             (spawned w))
    | None =>
        (Return [], mkWorld (fs w) (log w ++ [(INFO, "No suspended clients")])
                            (spawned w))
    end.
Proof.
  unfold Service.list_blocked. io_unfold.
  destruct (fs w !! Service.BLOCKLIST_PATH) as [text|] eqn:Hfile.
  - rewrite bool_decide_eq_true_2 by (by eexists). rewrite Hfile.
    rewrite strip_universal_newlines.
    case_bool_decide; [reflexivity|].
    by rewrite Hfile, splitlines_universal_newlines.
  - rewrite bool_decide_eq_false_2 by (by intros [? ?]). reflexivity.
Qed.

(** X8. [list_blocked] only reads: it always returns, leaves every file
    and the record of spawned commands as they were, and reports the lines
    of the block-list file, or nothing when the file is missing or holds
    white space only. *)
Theorem list_blocked_reads_only w :
  ∃ names w',
    Service.list_blocked w = (Return names, w')
    ∧ fs w' = fs w
    ∧ spawned w' = spawned w
    ∧ names = (if all_space (default "" (fs w !! Service.BLOCKLIST_PATH))
               then [] else Blocklist.lines w).
Proof.
  rewrite list_blocked_run. unfold Blocklist.lines.
  destruct (fs w !! Service.BLOCKLIST_PATH) as [text|]; cbn [from_option]; unfold id.
  - case_bool_decide as Hblank.
    + apply strip_empty_iff in Hblank. rewrite Hblank. by eexists _, _.
    + destruct (all_space text) eqn:Hspace; [|by eexists _, _].
      by apply strip_empty_iff in Hspace.
  - by eexists _, _.
Qed.

(** X9. After [suspend_client name], for a name without a line break that
    is not white space only, [list_blocked] reports the former lines
    followed by the name. *)
Theorem suspend_then_list_blocked name w :
  single_line name = true →
  all_space name = false →
  ∃ w',
    (Service.suspend_client name ;; Service.list_blocked) w
      = (Return (Blocklist.lines w ++ [name]), w').
Proof.
  intros Hline Hname.
  pose proof (suspend_client_run name w) as Hrun. cbv zeta in Hrun.
  erewrite bind_returns; [|exact Hrun].
  rewrite list_blocked_run. cbn [fs]. rewrite lookup_insert_eq.
  rewrite bool_decide_eq_false_2.
  - rewrite splitlines_appended by done. by eexists.
  - rewrite strip_empty_iff, all_space_app.
    rewrite (all_space_join nl _ name); [done| |done].
    apply elem_of_app. right. by left.
Qed.

Context (str_exn : exn → string).

(** X10. The endpoint behind GET /clients/blocked never fails: it returns
    the non-empty lines of the block-list file (none without a file) and
    leaves the files and the record of spawned commands as they were. *)
Theorem list_blocked_clients_returns w :
  ∃ w',
    Api.list_blocked_clients str_exn w
      = (Return (Api.mkBlocked (filter (λ line, line ≠ "") (Blocklist.lines w))), w')
    ∧ fs w' = fs w
    ∧ spawned w' = spawned w.
Proof.
  unfold Api.list_blocked_clients, Blocklist.lines. io_unfold.
  destruct (fs w !! Service.BLOCKLIST_PATH) as [text|] eqn:Hfile.
  - rewrite bool_decide_eq_true_2 by (by eexists). cbn [fs]. rewrite Hfile.
    rewrite splitlines_universal_newlines. by eexists.
  - rewrite bool_decide_eq_false_2 by (by intros [? ?]). by eexists.
Qed.

End Listing.

(** ** Running Easy-RSA and issuing a client *)

Section Issuing.

Import Py.

Context (spawn : Spawn).

(** X11. What [_run_easy_rsa] does, by the launch of [EASYRSA_BIN]
    followed by the arguments. The launch is refused with [ValueError] when
    an argument has a NUL character and is the environment's otherwise. When
    the program cannot be started the call raises the error of the launch,
    with the files and the record of spawned commands as they were. When it
    ran, the command is recorded once and the files are as the program left
    them; the call returns, logging nothing, when the exit status is 0, and
    otherwise raises [CalledProcessError] with that status and command line,
    with an ERROR record of the status in the log. *)
Theorem run_easy_rsa_outcomes args w :
  let cmd := Service.EASYRSA_BIN :: args in
  Backend.run spawn args (fs w) =
    (if existsb has_nul cmd then NotStarted (ValueError "embedded null byte")
     else spawn cmd (Backend.input args) (fs w))
  ∧ ∃ r w',
      Service._run_easy_rsa spawn args w = (r, w')
      ∧ match Backend.run spawn args (fs w) with
        | NotStarted e => r = Raise e ∧ fs w' = fs w ∧ spawned w' = spawned w
        | Completed p files' =>
            fs w' = files'
            ∧ spawned w' = spawned w ++ [cmd]
            ∧ (returncode p = 0 → r = Return tt ∧ log w' = log w)
            ∧ (returncode p ≠ 0 →
                 (∃ output err,
                    r = Raise (CalledProcessError (returncode p) cmd output err))
                 ∧ (ERROR, "Command failed with exit code " +:+ str_int (returncode p))
                     ∈ log w')
        end.
Proof.
  cbv zeta. split; [reflexivity|].
  destruct (Backend.run spawn args (fs w)) as [p files'|e] eqn:Hrun.
  - destruct (decide (returncode p = 0)) as [Hrc|Hrc].
    + eexists _, _. split; [exact (run_easy_rsa_returns spawn _ _ _ _ Hrun Hrc)|].
      cbn [fs log spawned]. repeat split; done.
    + unfold Backend.run, Backend.input in Hrun.
      unfold Service._run_easy_rsa, Service.run_process, Service.on_called_process_error.
      destruct (contains "build-client-full" args || contains "revoke" args);
        io_unfold; rewrite Hrun; cbn [fs log spawned];
        rewrite decide_True by done; cbn [from_option fs log spawned];
        repeat case_bool_decide; cbn [fs log spawned];
        (eexists _, _; split; [reflexivity|]; cbn [fs log spawned];
         split; [done|]; split; [done|]; split; [done|]; intros _;
         split; [by eexists _, _|];
         rewrite !elem_of_app, !list_elem_of_singleton; auto 10).
  - destruct (run_easy_rsa_not_started spawn args w e Hrun) as (w' & Hraise & Hfs & Hspawned).
    by exists (Raise e), w'.
Qed.

Lemma generate_client_cases tls_key name (password : bool) w :
  let build := ["build-client-full"; name] ++ (if password then [] else ["nopass"]) in
  let pki := Service.EASYRSA_PATH </> "pki" in
  let out := Service.OUTPUT_DIR </> (name +:+ ".ovpn") in
  ∃ r w',
    Service.generate_client spawn tls_key name password w = (r, w')
    ∧ match Backend.run spawn build (fs w) with
      | NotStarted e => r = Raise e ∧ fs w' = fs w ∧ spawned w' = spawned w
      | Completed p files' =>
          spawned w' = spawned w ++ [Service.EASYRSA_BIN :: build]
          ∧ ((returncode p ≠ 0
              ∧ (∃ output err,
                   r = Raise (CalledProcessError (returncode p)
                                (Service.EASYRSA_BIN :: build) output err))
              ∧ fs w' = files')
             ∨ (returncode p = 0
                ∧ (∃ missing,
                     r = Raise (FileNotFoundError missing) ∧ files' !! missing = None)
                ∧ fs w' = files')
             ∨ (returncode p = 0
                ∧ r = Return out
                ∧ ∃ template ca cert key tls,
                    files' !! Service.BASE_OVPN_TEMPLATE = Some template
                    ∧ files' !! (pki </> "ca.crt") = Some ca
                    ∧ files' !! (pki </> "issued" </> (name +:+ ".crt")) = Some cert
                    ∧ files' !! (pki </> "private" </> (name +:+ ".key")) = Some key
                    ∧ files' !! tls_key = Some tls
                    ∧ fs w' =
                        <[out := Service.render tls_key (universal_newlines template)
                                   (universal_newlines ca) (universal_newlines cert)
                                   (universal_newlines key) (universal_newlines tls)]>
                          files'))
      end.
Proof.
  cbv zeta.
  destruct (Backend.run spawn _ (fs w)) as [p files'|e] eqn:Hrun.
  - destruct (decide (returncode p = 0)) as [Hrc|Hrc].
    + destruct (files' !! Service.BASE_OVPN_TEMPLATE) as [template|] eqn:H1;
        [destruct (files' !! (Service.EASYRSA_PATH </> "pki" </> "ca.crt"))
           as [ca|] eqn:H2;
         [destruct (files' !! (Service.EASYRSA_PATH </> "pki" </> "issued"
                               </> (name +:+ ".crt"))) as [cert|] eqn:H3;
          [destruct (files' !! (Service.EASYRSA_PATH </> "pki" </> "private"
                                </> (name +:+ ".key"))) as [key|] eqn:H4;
           [destruct (files' !! tls_key) as [tls|] eqn:H5|]|]|]|].
      { destruct (generate_client_writes_render spawn tls_key name password w p files'
                    template ca cert key tls Hrun Hrc H1 H2 H3 H4 H5)
          as (w' & Hgen & Hfs).
        assert (spawned w' = spawned w ++ [Service.EASYRSA_BIN ::
                  ["build-client-full"; name] ++ (if password then [] else ["nopass"])])
          as Hspawned.
        { revert Hgen. unfold Service.generate_client. cbv zeta.
          erewrite bind_returns; [|exact (run_easy_rsa_returns spawn _ _ _ _ Hrun Hrc)].
          unfold Service.embed. io_unfold.
          rewrite H1; cbn [fs log spawned]. rewrite H2; cbn [fs log spawned].
          rewrite H3; cbn [fs log spawned]. rewrite H4; cbn [fs log spawned].
          rewrite H5; cbn [fs log spawned]. by intros [= <-]. }
        exists (Return (Service.OUTPUT_DIR </> (name +:+ ".ovpn"))), w'.
        split; [done|]. split; [done|]. right. right. split; [done|]. split; [done|].
        exists template, ca, cert, key, tls. done. }
      all: unfold Service.generate_client; cbv zeta;
        (erewrite bind_returns; [|exact (run_easy_rsa_returns spawn _ _ _ _ Hrun Hrc)]);
        unfold Service.embed; io_unfold;
        repeat (first [rewrite H1 | rewrite H2 | rewrite H3 | rewrite H4 | rewrite H5];
                cbn [fs log spawned]);
        eexists _, _; (split; [reflexivity|]); cbn [fs log spawned];
        (split; [done|]); right; left; eauto 10.
    + destruct (run_easy_rsa_raises spawn _ _ _ _ Hrun Hrc)
        as (output & err & records & Hraise).
      unfold Service.generate_client. cbv zeta.
      eexists _, _. split; [by erewrite bind_raises|]. cbn [fs log spawned].
      split; [done|]. left. eauto.
  - destruct (run_easy_rsa_not_started spawn _ w e Hrun) as (w' & Hraise & Hfs & Hspawned).
    unfold Service.generate_client. cbv zeta.
    exists (Raise e), w'. split; [by erewrite bind_raises|done].
Qed.

(** X12. How a call of [generate_client] ends, by the launch of Easy-RSA
    on [build-client-full NAME] (with [nopass] unless a passphrase is asked
    for). When the program cannot be started, or the name has a NUL
    character, the call raises the error of the launch and nothing has
    changed. When it ran, it ran once, and the call ends in one of three
    ways: [CalledProcessError] when the exit status is not 0;
    [FileNotFoundError] for an input file that is not there after a
    successful run; or the path [OUTPUT_DIR/NAME.ovpn], which then holds the
    rendering of the five input files as read in text mode. In the two
    failures the files are as the backend left them: no partial profile is
    written. *)
Theorem generate_client_outcomes tls_key name (password : bool) w :
  let build := ["build-client-full"; name] ++ (if password then [] else ["nopass"]) in
  let pki := Service.EASYRSA_PATH </> "pki" in
  let out := Service.OUTPUT_DIR </> (name +:+ ".ovpn") in
  (has_nul name = true →
     Backend.run spawn build (fs w) = NotStarted (ValueError "embedded null byte"))
  ∧ ∃ r w',
    Service.generate_client spawn tls_key name password w = (r, w')
    ∧ match Backend.run spawn build (fs w) with
      | NotStarted e => r = Raise e ∧ fs w' = fs w ∧ spawned w' = spawned w
      | Completed p files' =>
          spawned w' = spawned w ++ [Service.EASYRSA_BIN :: build]
          ∧ ((returncode p ≠ 0
              ∧ (∃ output err,
                   r = Raise (CalledProcessError (returncode p)
                                (Service.EASYRSA_BIN :: build) output err))
              ∧ fs w' = files')
             ∨ (returncode p = 0
                ∧ (∃ missing,
                     r = Raise (FileNotFoundError missing) ∧ files' !! missing = None)
                ∧ fs w' = files')
             ∨ (returncode p = 0
                ∧ r = Return out
                ∧ ∃ template ca cert key tls,
                    files' !! Service.BASE_OVPN_TEMPLATE = Some template
                    ∧ files' !! (pki </> "ca.crt") = Some ca
                    ∧ files' !! (pki </> "issued" </> (name +:+ ".crt")) = Some cert
                    ∧ files' !! (pki </> "private" </> (name +:+ ".key")) = Some key
                    ∧ files' !! tls_key = Some tls
                    ∧ fs w' !! out =
                        Some (Service.render tls_key (universal_newlines template)
                                (universal_newlines ca) (universal_newlines cert)
                                (universal_newlines key) (universal_newlines tls))))
      end.
Proof.
  cbv zeta. split.
  { intros Hnul. etrans; [apply run_on_name; [by right|by destruct password]|].
    by rewrite Hnul. }
  destruct (generate_client_cases tls_key name password w) as (r & w' & Hrun & Hcases).
  exists r, w'. split; [done|].
  destruct (Backend.run spawn _ (fs w)) as [p files'|e]; [|done].
  destruct Hcases as [Hspawned Hcases]. split; [done|].
  destruct Hcases as [?|[?|(Hrc & Hr & template & ca & cert & key & tls
                             & H1 & H2 & H3 & H4 & H5 & Hfs)]]; [by left|by right; left|].
  right. right. split; [done|]. split; [done|].
  exists template, ca, cert, key, tls. rewrite Hfs, lookup_insert_eq. done.
Qed.

End Issuing.

(** ** Paths built from a client name *)

Section NamedPaths.

Import Py.

Lemma app_eq_empty_r (a b : string) : a +:+ b = "" → b = "".
Proof. by destruct a. Qed.

Lemma split_without_sep (sep : ascii) (s : string) :
  sep ∉ String.list_ascii_of_string s → Pathlib.split sep s = [s].
Proof.
  induction s as [|c s IH]; [done|]. cbn [String.list_ascii_of_string].
  intros [Hc Hs]%not_elem_of_cons. cbn [Pathlib.split].
  rewrite decide_False by done. by rewrite IH.
Qed.

(** Appending a text without separator extends the last component. *)
Lemma split_app_last (sep : ascii) (t ext : string) :
  sep ∉ String.list_ascii_of_string ext →
  ∃ init l,
    Pathlib.split sep t = init ++ [l]
    ∧ Pathlib.split sep (t +:+ ext) = init ++ [l +:+ ext].
Proof.
  intros Hext. induction t as [|c t (init & l & Ht & Htext)].
  - exists [], "". split; [done|]. by apply split_without_sep.
  - rewrite app_cons. cbn [Pathlib.split]. rewrite Ht, Htext.
    destruct (decide (c = sep)).
    + by exists ("" :: init), l.
    + destruct init as [|i init]; [by exists [], (String c l)|].
      by exists (String c i :: init), l.
Qed.

Lemma join_last (sep : string) (xs : list string) (y : string) :
  ∃ pre, join sep (xs ++ [y]) = pre +:+ y.
Proof.
  induction xs as [|x xs [pre IH]]; [by exists ""|].
  exists (x +:+ sep +:+ pre).
  change (join sep ((x :: xs) ++ [y]))
    with (match xs ++ [y] with [] => x | _ => x +:+ sep +:+ join sep (xs ++ [y]) end).
  rewrite IH. destruct (xs ++ [y]) eqn:Hxs; [by destruct xs|].
  by rewrite !app_assoc_str.
Qed.

(** A path made from a text that ends with an extension ends with it. *)
Lemma Path_keeps_extension (t ext : string) :
  "/"%char ∉ String.list_ascii_of_string ext → ext ≠ "" → ext ≠ "." →
  ∃ u, Pathlib.Path (t +:+ ext) = u +:+ ext.
Proof.
  intros Hsep Hne Hdot.
  destruct (split_app_last "/" t ext Hsep) as (init & l & _ & Hsplit).
  unfold Pathlib.Path, Pathlib.parts. rewrite Hsplit, filter_app.
  rewrite (filter_cons_True _ (l +:+ ext) []); last first.
  { split.
    - intros Hnil. by apply app_eq_empty_r in Hnil.
    - destruct l as [|c l]; [done|]. rewrite app_cons.
      intros [= _ Hnil]. by apply app_eq_empty_r in Hnil. }
  rewrite filter_nil.
  destruct (join_last "/" (filter (λ p, p ≠ "" ∧ p ≠ ".") init) (l +:+ ext)) as [pre Hjoin].
  exists (Pathlib.root (t +:+ ext) +:+ pre +:+ l).
  rewrite !app_assoc_str, <- Hjoin.
  destruct (Pathlib.root (t +:+ ext)); [|done].
  by destruct (filter _ init).
Qed.

Lemma joinpath_keeps_extension (p name ext : string) :
  "/"%char ∉ String.list_ascii_of_string ext → ext ≠ "" → ext ≠ "." →
  ∃ u, p </> (name +:+ ext) = u +:+ ext.
Proof.
  intros Hsep Hne Hdot. unfold Pathlib.joinpath.
  destruct (startswith (name +:+ ext) "/").
  - by apply Path_keeps_extension.
  - rewrite <- !app_assoc_str. by apply Path_keeps_extension.
Qed.

Lemma crt_path (p name : string) : ∃ u, p </> (name +:+ ".crt") = u +:+ ".crt".
Proof.
  apply joinpath_keeps_extension; [|done|done].
  apply (bool_decide_unpack _). by vm_compute.
Qed.

Lemma key_path (p name : string) : ∃ u, p </> (name +:+ ".key") = u +:+ ".key".
Proof.
  apply joinpath_keeps_extension; [|done|done].
  apply (bool_decide_unpack _). by vm_compute.
Qed.

Lemma ovpn_path (p name : string) : ∃ u, p </> (name +:+ ".ovpn") = u +:+ ".ovpn".
Proof.
  apply joinpath_keeps_extension; [|done|done].
  apply (bool_decide_unpack _). by vm_compute.
Qed.

Lemma endswith_differ (a b ext : string) :
  endswith a ext = true → endswith b ext = false → a ≠ b.
Proof. intros Ha Hb ->. congruence. Qed.

End NamedPaths.

(** [a ≠ b] for two paths told apart by the extension [ext]: one is
    [u +:+ ext], the other a constant or a text with another extension. *)
Ltac ends_otherwise :=
  first [ vm_compute; reflexivity
        | unfold Py.endswith; rewrite rev_app_distr; vm_compute; reflexivity ].

Ltac differ_by ext :=
  first
    [ solve [ apply (endswith_differ _ _ ext); [apply endswith_app | ends_otherwise] ]
    | solve [ apply not_eq_sym, (endswith_differ _ _ ext);
              [apply endswith_app | ends_otherwise] ] ].

(** ** Revoking a client *)

Section Revoking.

Import Py.

Context (spawn : Spawn).

Lemma revoke_client_steps name w :
  let revoke := [Service.EASYRSA_BIN; "revoke"; name] in
  let gen_crl := [Service.EASYRSA_BIN; "gen-crl"] in
  ∃ r w',
    Service.revoke_client spawn name w = (r, w')
    ∧ match Backend.run spawn ["revoke"; name] (fs w) with
      | NotStarted e => r = Raise e ∧ fs w' = fs w ∧ spawned w' = spawned w
      | Completed p1 files1 =>
          if decide (returncode p1 ≠ 0) then
            spawned w' = spawned w ++ [revoke]
            ∧ fs w' = files1
            ∧ ∃ output err, r = Raise (CalledProcessError (returncode p1) revoke output err)
          else
            match Backend.run spawn ["gen-crl"] files1 with
            | NotStarted e =>
                r = Raise e ∧ fs w' = files1 ∧ spawned w' = spawned w ++ [revoke]
            | Completed p2 files2 =>
                spawned w' = spawned w ++ [revoke; gen_crl]
                ∧ if decide (returncode p2 ≠ 0) then
                    fs w' = files2
                    ∧ ∃ output err,
                        r = Raise (CalledProcessError (returncode p2) gen_crl output err)
                  else if decide (is_Some (files2 !! Backend.crl_src)) then r = Return tt
                  else fs w' = files2
                       ∧ r = Raise (RuntimeError "crl.pem not found after gen-crl")
            end
      end.
Proof.
  cbv zeta. unfold Service.revoke_client. cbv zeta.
  destruct (Backend.run spawn ["revoke"; name] (fs w)) as [p1 files1|e1] eqn:Hrun1.
  2: { destruct (run_easy_rsa_not_started spawn _ w e1 Hrun1) as (w' & Hraise & ? & ?).
       exists (Raise e1), w'. split; [by erewrite bind_raises|done]. }
  destruct (decide (returncode p1 ≠ 0)) as [Hrc1|Hrc1].
  { destruct (run_easy_rsa_raises spawn _ _ _ _ Hrun1 Hrc1) as (? & ? & ? & Hraise).
    eexists _, _. split; [by erewrite bind_raises|]. cbn [fs spawned]. eauto. }
  apply dec_stable in Hrc1.
  pose proof (run_easy_rsa_returns spawn _ _ _ _ Hrun1 Hrc1) as Hret1.
  erewrite bind_returns; [|exact Hret1].
  set (w1 := mkWorld files1 _ _) in *.
  destruct (Backend.run spawn ["gen-crl"] files1) as [p2 files2|e2] eqn:Hrun2.
  2: { destruct (run_easy_rsa_not_started spawn ["gen-crl"] w1 e2 Hrun2)
         as (w' & Hraise & Hfs & Hspawned).
       exists (Raise e2), w'. split; [by erewrite bind_raises|].
       by rewrite Hfs, Hspawned. }
  destruct (decide (returncode p2 ≠ 0)) as [Hrc2|Hrc2].
  { destruct (run_easy_rsa_raises spawn ["gen-crl"] w1 _ _ Hrun2 Hrc2)
      as (? & ? & ? & Hraise).
    eexists _, _. split; [by erewrite bind_raises|]. subst w1. cbn [fs spawned].
    rewrite <- (assoc_L app). eauto. }
  apply dec_stable in Hrc2.
  pose proof (run_easy_rsa_returns spawn ["gen-crl"] w1 _ _ Hrun2 Hrc2) as Hret2.
  erewrite bind_returns; [|exact Hret2].
  set (w2 := mkWorld files2 _ _) in *.
  destruct (files2 !! Backend.crl_src) as [crl|] eqn:Hcrl.
  - destruct (decide (is_Some (Some crl))) as [_|Hno]; [|by destruct Hno; eexists].
    erewrite bind_returns; [|by apply (refresh_crl_copies w2 crl)].
    erewrite bind_returns; [|reflexivity].
    erewrite bind_returns; [|reflexivity].
    rewrite bind_run, unsuspend_client_run. subst w2 w1. cbn [fs log spawned].
    match goal with
    | |- context [match ?m !! Service.BLOCKLIST_PATH with _ => _ end] =>
        destruct (m !! Service.BLOCKLIST_PATH)
    end; eexists _, _; (split; [reflexivity|]); cbn [spawned];
      rewrite <- (assoc_L app); done.
  - destruct (decide (is_Some (@None string))) as [[? ?]|_]; [done|].
    erewrite bind_raises; [|by apply (refresh_crl_missing w2)].
    eexists _, _. split; [reflexivity|]. subst w2 w1. cbn [fs spawned].
    rewrite <- (assoc_L app). done.
Qed.

(** X13. How [revoke_client] ends, by the launches of Easy-RSA. It runs
    [revoke NAME] first and [gen-crl] only after a [revoke] that exited with
    status 0, and never a third command. A launch that fails (for a name
    with a NUL character, or a program that cannot be started) ends the
    call with the error of the launch, and a step that exits with another
    status than 0 ends it with [CalledProcessError] of that step, in each
    case with the files as the last completed step left them. After both
    steps succeeded the call raises [RuntimeError] when the revocation list
    is missing, and returns otherwise. *)
Theorem revoke_client_outcomes name w :
  let revoke := [Service.EASYRSA_BIN; "revoke"; name] in
  let gen_crl := [Service.EASYRSA_BIN; "gen-crl"] in
  (has_nul name = true →
     Backend.run spawn ["revoke"; name] (fs w) = NotStarted (ValueError "embedded null byte"))
  ∧ ∃ r w',
    Service.revoke_client spawn name w = (r, w')
    ∧ match Backend.run spawn ["revoke"; name] (fs w) with
      | NotStarted e => r = Raise e ∧ fs w' = fs w ∧ spawned w' = spawned w
      | Completed p1 files1 =>
          if decide (returncode p1 ≠ 0) then
            spawned w' = spawned w ++ [revoke]
            ∧ fs w' = files1
            ∧ ∃ output err, r = Raise (CalledProcessError (returncode p1) revoke output err)
          else
            match Backend.run spawn ["gen-crl"] files1 with
            | NotStarted e =>
                r = Raise e ∧ fs w' = files1 ∧ spawned w' = spawned w ++ [revoke]
            | Completed p2 files2 =>
                spawned w' = spawned w ++ [revoke; gen_crl]
                ∧ if decide (returncode p2 ≠ 0) then
                    fs w' = files2
                    ∧ ∃ output err,
                        r = Raise (CalledProcessError (returncode p2) gen_crl output err)
                  else if decide (is_Some (files2 !! Backend.crl_src)) then r = Return tt
                  else fs w' = files2
                       ∧ r = Raise (RuntimeError "crl.pem not found after gen-crl")
            end
      end.
Proof.
  cbv zeta. split; [|apply revoke_client_steps].
  intros Hnul. etrans; [apply run_on_name; [by left|done]|]. by rewrite Hnul.
Qed.

(** X14. A completed [revoke_client] ends the client's suspension: when
    both backend steps succeed and the revocation list is there, the call
    returns and the name is on no line of the block-list. *)
Theorem revoke_client_clears_suspension name w files' crl :
  Backend.revocation spawn name (fs w) = Backend.BackendDone files' →
  files' !! Backend.crl_src = Some crl →
  ∃ w',
    Service.revoke_client spawn name w = (Return tt, w')
    ∧ name ∉ Blocklist.lines w'.
Proof.
  intros Hdone Hcrl.
  destruct (revoke_client_cleans_up spawn name w files' crl Hdone Hcrl) as (w' & Hrun & Hfs).
  exists w'. split; [done|]. unfold Blocklist.lines. rewrite Hfs. cbv zeta.
  match goal with
  | |- context [match ?m !! Service.BLOCKLIST_PATH with _ => _ end] =>
      destruct (m !! Service.BLOCKLIST_PATH) as [text|] eqn:Hfile
  end.
  - rewrite lookup_insert_eq. cbn [from_option]. unfold id.
    pose proof (splitlines_kept name text) as Hkept. cbv zeta in Hkept.
    rewrite Hkept, list_elem_of_filter. tauto.
  - rewrite Hfile. cbn. apply not_elem_of_nil.
Qed.

Lemma revoke_client_completed_files name w files' crl :
  Backend.revocation spawn name (fs w) = Backend.BackendDone files' →
  files' !! Backend.crl_src = Some crl →
  let pki := Service.EASYRSA_PATH </> "pki" in
  ∃ w',
    Service.revoke_client spawn name w = (Return tt, w')
    ∧ fs w' !! Service.CRL_PATH = Some crl
    ∧ fs w' !! (Service.OUTPUT_DIR </> (name +:+ ".ovpn")) = None
    ∧ fs w' !! (pki </> "issued" </> (name +:+ ".crt")) = None
    ∧ fs w' !! (pki </> "private" </> (name +:+ ".key"))
        = files' !! (pki </> "private" </> (name +:+ ".key")).
Proof.
  intros Hdone Hcrl pki.
  destruct (revoke_client_cleans_up spawn name w files' crl Hdone Hcrl) as (w' & Hrun & Hfs).
  exists w'. split; [done|]. cbv zeta in Hfs. fold pki in Hfs.
  destruct (ovpn_path Service.OUTPUT_DIR name) as [o Ho].
  destruct (crt_path (pki </> "issued") name) as [c1 Hc1].
  destruct (crt_path (pki </> "private") name) as [c2 Hc2].
  destruct (crt_path (pki </> "reqs") name) as [c3 Hc3].
  destruct (key_path (pki </> "private") name) as [k Hk].
  rewrite Ho, Hc1, Hc2, Hc3 in Hfs. rewrite Ho, Hc1, Hk. clear Ho Hc1 Hc2 Hc3 Hk.
  assert (∀ path, path ≠ Service.BLOCKLIST_PATH →
            fs w' !! path
            = delete (o +:+ ".ovpn") (delete (c3 +:+ ".crt") (delete (c2 +:+ ".crt")
                (delete (c1 +:+ ".crt") (<[Service.CRL_PATH := crl]> files')))) !! path)
    as Hother.
  { intros path Hpath. rewrite Hfs.
    match goal with
    | |- context [match ?m !! Service.BLOCKLIST_PATH with _ => _ end] =>
        destruct (m !! Service.BLOCKLIST_PATH)
    end; [by rewrite lookup_insert_ne|done]. }
  repeat split.
  - rewrite Hother by (vm_compute; discriminate).
    rewrite !lookup_delete_ne; [apply lookup_insert_eq| ..].
    + differ_by ".crt".
    + differ_by ".crt".
    + differ_by ".crt".
    + differ_by ".ovpn".
  - rewrite Hother by differ_by ".ovpn". apply lookup_delete_eq.
  - rewrite Hother by differ_by ".crt". rewrite !lookup_delete_None. auto.
  - rewrite Hother by differ_by ".key".
    rewrite !lookup_delete_ne, lookup_insert_ne; [done| ..].
    + differ_by ".key".
    + differ_by ".key".
    + differ_by ".key".
    + differ_by ".key".
    + differ_by ".key".
Qed.

(** X15. What a completed [revoke_client] leaves behind, for every name:
    the server's revocation list is the one Easy-RSA generated; the
    client's profile [OUTPUT_DIR/NAME.ovpn] and certificate
    [pki/issued/NAME.crt] are gone; the private key [pki/private/NAME.key]
    is as the backend left it. *)
Theorem revoke_client_aftermath name w files' crl :
  Backend.revocation spawn name (fs w) = Backend.BackendDone files' →
  files' !! Backend.crl_src = Some crl →
  let pki := Service.EASYRSA_PATH </> "pki" in
  ∃ w',
    Service.revoke_client spawn name w = (Return tt, w')
    ∧ fs w' !! Service.CRL_PATH = Some crl
    ∧ fs w' !! (Service.OUTPUT_DIR </> (name +:+ ".ovpn")) = None
    ∧ fs w' !! (pki </> "issued" </> (name +:+ ".crt")) = None
    ∧ fs w' !! (pki </> "private" </> (name +:+ ".key"))
        = files' !! (pki </> "private" </> (name +:+ ".key")).
Proof. apply revoke_client_completed_files. Qed.

(** A [revoke_client] that returned went through both backend steps and
    found the revocation list. *)
Lemma revoke_client_returned name w w' :
  Service.revoke_client spawn name w = (Return tt, w') →
  ∃ files' crl,
    Backend.revocation spawn name (fs w) = Backend.BackendDone files'
    ∧ files' !! Backend.crl_src = Some crl.
Proof.
  intros Hret. pose proof (revoke_client_steps name w) as Hsteps. cbv zeta in Hsteps.
  unfold Backend.revocation.
  destruct Hsteps as (r & w2 & Hrun & Hcases). rewrite Hret in Hrun.
  injection Hrun as <- <-.
  destruct (Backend.run spawn ["revoke"; name] (fs w)) as [p1 files1|e1];
    [|by destruct Hcases].
  destruct (decide (returncode p1 ≠ 0)); [by destruct Hcases as (_ & _ & ? & ? & ?)|].
  destruct (Backend.run spawn ["gen-crl"] files1) as [p2 files2|e2];
    [|by destruct Hcases].
  destruct Hcases as [_ Hcases].
  destruct (decide (returncode p2 ≠ 0)); [by destruct Hcases as (_ & ? & ? & ?)|].
  destruct (decide (is_Some (files2 !! Backend.crl_src))) as [[crl Hcrl]|];
    [|by destruct Hcases].
  eauto.
Qed.

End Revoking.

(** ** White space around the rendered material *)

Section RenderSpace.

Import Py.

Lemma rstrip_all_space (s : string) : all_space s = true → rstrip s = "".
Proof. apply rstrip_empty_iff. Qed.

Lemma rstrip_app_space (s pad : string) :
  all_space pad = true → rstrip (s +:+ pad) = rstrip s.
Proof.
  intros Hpad. induction s as [|c s IH]; [by apply rstrip_all_space|].
  by rewrite app_cons, !rstrip_cons, IH.
Qed.

Lemma lstrip_app_space (pad s : string) :
  all_space pad = true → lstrip (pad +:+ s) = lstrip s.
Proof.
  induction pad as [|c pad IH]; [done|]. cbn [all_space].
  intros [Hc Hpad]%andb_true_iff. rewrite app_cons. cbn [lstrip].
  rewrite Hc. by apply IH.
Qed.

Lemma lstrip_cons_nonspace (c : ascii) (s : string) :
  isspace c = false → lstrip (String c s) = String c s.
Proof. intros Hc. cbn [lstrip]. by rewrite Hc. Qed.

(** Stripping on the left and on the right commute. *)
Lemma rstrip_lstrip (s : string) : rstrip (lstrip s) = lstrip (rstrip s).
Proof.
  induction s as [|c s IH]; [done|].
  destruct (isspace c) eqn:Hc.
  - cbn [lstrip]. rewrite Hc, IH, rstrip_cons.
    destruct (rstrip s) eqn:Hr; rewrite ?Hc; [done|].
    symmetry. cbn [lstrip]. by rewrite Hc.
  - rewrite lstrip_cons_nonspace by done. rewrite rstrip_cons.
    destruct (rstrip s); rewrite ?Hc; by rewrite lstrip_cons_nonspace.
Qed.

Lemma strip_padded (a s b : string) :
  all_space a = true → all_space b = true → strip (a +:+ s +:+ b) = strip s.
Proof.
  intros Ha Hb. unfold strip.
  rewrite <- app_assoc_str, rstrip_app_space by done.
  rewrite <- rstrip_lstrip, lstrip_app_space by done.
  apply rstrip_lstrip.
Qed.

(** X16. The rendered profile does not depend on white space at the end of
    the template, nor on white space before or after the contents of the
    four embedded files. *)
Theorem render_ignores_padding tls_key template ca cert key tls t1 a1 b1 a2 b2 a3 b3 a4 b4 :
  Forall (λ pad, all_space pad = true) [t1; a1; b1; a2; b2; a3; b3; a4; b4] →
  Service.render tls_key (template +:+ t1) (a1 +:+ ca +:+ b1) (a2 +:+ cert +:+ b2)
    (a3 +:+ key +:+ b3) (a4 +:+ tls +:+ b4)
  = Service.render tls_key template ca cert key tls.
Proof.
  intros Hpads. repeat (apply Forall_cons in Hpads as [? Hpads]).
  unfold Service.render, Service.embed_text.
  by rewrite rstrip_app_space, !strip_padded.
Qed.

End RenderSpace.

(** ** The routes once the key is checked *)

Section Endpoints.

Import Py.

Context (spawn : Spawn) (tls_key API_KEY : string) (str_exn : exn → string).

(** The check of a configured key that the request presents. *)
Lemma depends_passes {A} (request : Api.Request) (endpoint : IO A) w :
  API_KEY ≠ "" →
  Api.x_api_key request = Some API_KEY →
  Api.depends_get_api_key API_KEY request endpoint w = endpoint w.
Proof.
  intros Hset Hkey.
  unfold Api.depends_get_api_key, Api.api_key_header, Api.get_api_key.
  rewrite Hkey, decide_False by done. io_unfold.
  rewrite decide_False by done.
  rewrite decide_False by (intros Hne; by apply Hne). reflexivity.
Qed.

(** X17. With a key configured, a request that presents exactly that key
    goes through the check silently: the endpoint runs in the world as it
    was, nothing logged before it. *)
Theorem depends_admits_configured_key {A} (request : Api.Request) (endpoint : IO A) w :
  API_KEY ≠ "" →
  Api.x_api_key request = Some API_KEY →
  Api.depends_get_api_key API_KEY request endpoint w = endpoint w.
Proof. apply depends_passes. Qed.

(** An endpoint body under [try: ... except Exception as e: ...
    raise HTTPException(500, str(e))], after the INFO record of the
    request. *)
Lemma guarded_wraps_in_500 {A B} (msg : string) (m : IO A) (respond : A → B)
    (failed : exn → string) w :
  Api.wraps_in_500 str_exn respond
    (m (mkWorld (fs w) (log w ++ [(INFO, msg)]) (spawned w)))
    ((Logger.info msg ;;
      try_except (a ← m; mret (respond a))
        (λ e, Logger.error (failed e) ;; mthrow (HTTPException 500 (str_exn e)))) w).
Proof.
  unfold Api.wraps_in_500, try_except. rewrite bind_run.
  cbn [Logger.info Logger.emit]. rewrite bind_run.
  destruct (m _) as [[a|e] w']; cbn [fst snd]; [reflexivity|].
  exists (failed e). reflexivity.
Qed.

(** X18. The four endpoints that call the orchestrator turn its outcome
    into theirs. Each logs the request and runs the orchestrator call; when
    the call returns, the endpoint answers with its success response in the
    world the call left; when the call raises [e] (a failed launch, a
    failing backend, a missing file or a missing revocation list alike), the
    endpoint raises an [HTTPException] of status 500 whose detail is
    [str(e)] of that same exception, having added one ERROR record. *)
Theorem endpoints_wrap_failures_in_500 client name w :
  let logged msg := mkWorld (fs w) (log w ++ [(INFO, msg)]) (spawned w) in
  Api.wraps_in_500 str_exn
    (λ config_path,
       Api.mkClientResponse (Api.cr_name client)
         ("Client " +:+ Api.cr_name client +:+ " created successfully")
         (Some config_path))
    (Service.generate_client spawn tls_key (Api.cr_name client) (Api.use_password client)
       (logged ("API request: create client " +:+ Api.cr_name client)))
    (Api.create_client spawn tls_key str_exn client w)
  ∧ Api.wraps_in_500 str_exn
      (λ _ : unit,
         Api.mkClientResponse name ("Client " +:+ name +:+ " revoked successfully") None)
      (Service.revoke_client spawn name (logged ("API request: revoke client " +:+ name)))
      (Api.revoke_client spawn str_exn name w)
  ∧ Api.wraps_in_500 str_exn
      (λ _ : unit,
         Api.mkClientResponse name ("Client " +:+ name +:+ " suspended successfully") None)
      (Service.suspend_client name (logged ("API request: suspend client " +:+ name)))
      (Api.suspend_client str_exn name w)
  ∧ Api.wraps_in_500 str_exn
      (λ _ : unit,
         Api.mkClientResponse name ("Client " +:+ name +:+ " unsuspended successfully") None)
      (Service.unsuspend_client name (logged ("API request: unsuspend client " +:+ name)))
      (Api.unsuspend_client str_exn name w).
Proof.
  cbv zeta. repeat split.
  - apply (guarded_wraps_in_500 _ _ _
             (λ e, "Failed to create client " +:+ Api.cr_name client +:+ ": " +:+ str_exn e)).
  - apply (guarded_wraps_in_500 _ _ _
             (λ e, "Failed to revoke client " +:+ name +:+ ": " +:+ str_exn e)).
  - apply (guarded_wraps_in_500 _ _ _
             (λ e, "Failed to suspend client " +:+ name +:+ ": " +:+ str_exn e)).
  - apply (guarded_wraps_in_500 _ _ _
             (λ e, "Failed to unsuspend client " +:+ name +:+ ": " +:+ str_exn e)).
Qed.

(** X19. Suspending and unsuspending through the API succeed for every
    name once the key is accepted, whether or not a client of that name was
    ever issued: the routes answer with the success message. *)
Theorem suspend_routes_always_answer request name w :
  API_KEY ≠ "" →
  Api.x_api_key request = Some API_KEY →
  (∃ w', Api.POST_suspend API_KEY str_exn request name w
          = (Return (Api.mkClientResponse name
                       ("Client " +:+ name +:+ " suspended successfully") None), w'))
  ∧ (∃ w', Api.POST_unsuspend API_KEY str_exn request name w
            = (Return (Api.mkClientResponse name
                         ("Client " +:+ name +:+ " unsuspended successfully") None), w')).
Proof.
  intros Hset Hkey. unfold Api.POST_suspend, Api.POST_unsuspend.
  rewrite !depends_passes by done.
  unfold Api.suspend_client, Api.unsuspend_client. split.
  - rewrite bind_run. cbn [Logger.info Logger.emit]. unfold try_except.
    rewrite bind_run, suspend_client_run. by eexists.
  - rewrite bind_run. cbn [Logger.info Logger.emit]. unfold try_except.
    rewrite bind_run, unsuspend_client_run.
    match goal with
    | |- context [match ?m !! Service.BLOCKLIST_PATH with _ => _ end] =>
        destruct (m !! Service.BLOCKLIST_PATH)
    end; by eexists.
Qed.

(** X20. Downloading a profile right after [generate_client] returned finds
    it: the endpoint answers with a file response for the path that
    [generate_client] returned, under the file name [NAME.ovpn]. *)
Theorem download_after_generate name password w out w1 :
  Service.generate_client spawn tls_key name password w = (Return out, w1) →
  ∃ w2,
    Api.download_client_config name w1
      = (Return (Api.mkFileResponse out (name +:+ ".ovpn") "application/octet-stream"), w2)
    ∧ fs w2 = fs w1.
Proof.
  intros Hgen.
  destruct (generate_client_cases spawn tls_key name password w)
    as (r & w' & Hrun & Hcases).
  cbv zeta in Hrun, Hcases. rewrite Hgen in Hrun. injection Hrun as <- <-.
  destruct (Backend.run spawn _ (fs w)) as [p files'|e]; [|by destruct Hcases].
  destruct Hcases as [_ Hcases].
  destruct Hcases as [(_ & (? & ? & ?) & _)|[(_ & (? & ? & _) & _)|(_ & Hout & Hfs)]];
    [done..|].
  injection Hout as ->.
  destruct Hfs as (template & ca & cert & key & tls & _ & _ & _ & _ & _ & Hfs).
  unfold Api.download_client_config. io_unfold.
  rewrite Hfs, lookup_insert_eq, bool_decide_eq_true_2 by (by eexists).
  by eexists.
Qed.

(** X21. Downloading the profile of a client whose [revoke_client]
    returned fails with status 404, for every name, and changes no file. *)
Theorem download_after_revoke name w w1 :
  Service.revoke_client spawn name w = (Return tt, w1) →
  ∃ w2,
    Api.download_client_config name w1
      = (Raise (HTTPException 404 ("Config for " +:+ name +:+ " not found")), w2)
    ∧ fs w2 = fs w1.
Proof.
  intros Hret.
  destruct (revoke_client_returned spawn name w w1 Hret) as (files' & crl & Hdone & Hcrl).
  destruct (revoke_client_completed_files spawn name w files' crl Hdone Hcrl)
    as (w' & Hrun & _ & Hgone & _).
  rewrite Hret in Hrun. injection Hrun as <-.
  unfold Api.download_client_config. io_unfold.
  rewrite Hgone, bool_decide_eq_false_2 by (by intros [? ?]).
  by eexists.
Qed.

End Endpoints.

(** ** Issuing, once more *)

Section IssuingDetails.

Import Py.

Context (spawn : Spawn).

(** X22. What a successful [generate_client] writes: after a
    [build-client-full] that ran and exited with status 0, with the
    template, the CA certificate, the client's certificate and key and the
    pre-shared key in place, the call returns [OUTPUT_DIR/NAME.ovpn] and
    that file holds the rendering of exactly those five texts as
    [read_text] gives them, with every CR LF and lone CR turned into LF. *)
Theorem generate_client_renders_inputs tls_key name (password : bool) w p files'
    template ca cert key tls :
  Backend.run spawn (["build-client-full"; name] ++ (if password then [] else ["nopass"]))
    (fs w) = Completed p files' →
  returncode p = 0 →
  files' !! Service.BASE_OVPN_TEMPLATE = Some template →
  files' !! (Service.EASYRSA_PATH </> "pki" </> "ca.crt") = Some ca →
  files' !! (Service.EASYRSA_PATH </> "pki" </> "issued" </> (name +:+ ".crt")) = Some cert →
  files' !! (Service.EASYRSA_PATH </> "pki" </> "private" </> (name +:+ ".key")) = Some key →
  files' !! tls_key = Some tls →
  let out := Service.OUTPUT_DIR </> (name +:+ ".ovpn") in
  ∃ w', Service.generate_client spawn tls_key name password w = (Return out, w')
    ∧ fs w' !! out =
        Some (Service.render tls_key (universal_newlines template)
                (universal_newlines ca) (universal_newlines cert)
                (universal_newlines key) (universal_newlines tls)).
Proof.
  intros Hrun Hrc Htemplate Hca Hcert Hkey Htls out.
  destruct (generate_client_writes_render spawn tls_key name password w p files'
              template ca cert key tls Hrun Hrc Htemplate Hca Hcert Hkey Htls)
    as (w' & Hgen & Hfs).
  exists w'. split; [exact Hgen|]. rewrite Hfs. apply lookup_insert_eq.
Qed.

Lemma startswith_app (s t p : string) :
  startswith s p = true → startswith (s +:+ t) p = true.
Proof.
  revert s. induction p as [|a p IH]; intros s; [done|].
  destruct s as [|b s]; [done|]. rewrite app_cons. cbn [startswith].
  destruct (decide (a = b)); [apply IH|done].
Qed.

(** X24. A name that starts with "/" takes the profile out of the output
    directory: when [generate_client] returns for such a name, the path it
    returns, and has written, is the name itself with ".ovpn" appended (as
    [pathlib] normalises it), whatever [OUTPUT_DIR] is. *)
Theorem absolute_name_leaves_output_dir tls_key name (password : bool) w out w1 :
  startswith name "/" = true →
  Service.generate_client spawn tls_key name password w = (Return out, w1) →
  out = Pathlib.Path (name +:+ ".ovpn")
  ∧ is_Some (fs w1 !! Pathlib.Path (name +:+ ".ovpn")).
Proof.
  intros Habs Hgen.
  destruct (generate_client_cases spawn tls_key name password w)
    as (r & w' & Hrun & Hcases).
  cbv zeta in Hrun, Hcases. rewrite Hgen in Hrun. injection Hrun as <- <-.
  destruct (Backend.run spawn _ (fs w)) as [p files'|e]; [|by destruct Hcases].
  destruct Hcases as [_ Hcases].
  destruct Hcases as [(_ & (? & ? & ?) & _)|[(_ & (? & ? & _) & _)|(_ & Hout & Hfs)]];
    [done..|].
  injection Hout as ->.
  destruct Hfs as (template & ca & cert & key & tls & _ & _ & _ & _ & _ & Hfs).
  assert (Service.OUTPUT_DIR </> (name +:+ ".ovpn") = Pathlib.Path (name +:+ ".ovpn"))
    as Hpath.
  { unfold Pathlib.joinpath. by rewrite startswith_app. }
  split; [done|]. rewrite <- Hpath, Hfs, lookup_insert_eq. by eexists.
Qed.

End IssuingDetails.

Section KeyUnset.

(** X23. With no API key configured, every request that carries a
    non-empty X-API-Key header reaches its endpoint, whatever the key: the
    check only logs the warning that authentication is off. *)
Theorem unset_key_skips_the_check {A} (request : Api.Request) (endpoint : IO A) key w :
  Api.x_api_key request = Some key →
  key ≠ "" →
  Api.depends_get_api_key "" request endpoint w =
    endpoint (mkWorld (fs w)
                (log w ++ [(WARNING, "No API_KEY set - running without authentication")])
                (spawned w)).
Proof. apply depends_skips_when_unset. Qed.

End KeyUnset.

(** ** The further properties at concrete inputs *)

(** A server without block-list file. *)
Lemma unsuspend_on_fresh_server :
  fs Fixtures.server !! Service.BLOCKLIST_PATH = None
  ∧ Service.unsuspend_client "alice" Fixtures.server = (Return tt, Fixtures.server).
Proof.
  split; [vm_compute; reflexivity|].
  apply (unsuspend_client_without_file "alice" Fixtures.server). vm_compute; reflexivity.
Defined.

(** "bob" is not on the block-list that holds "alice". *)
Lemma unsuspend_bob_keeps_alice :
  ∃ w',
    Service.unsuspend_client "bob" Fixtures.with_alice = (Return tt, w')
    ∧ Blocklist.lines w' = Py.splitlines ("alice" +:+ Py.nl)
    ∧ ∀ path, path ≠ Service.BLOCKLIST_PATH →
              fs w' !! path = fs Fixtures.with_alice !! path.
Proof.
  apply (unsuspend_client_absent_name "bob" Fixtures.with_alice ("alice" +:+ Py.nl)).
  - vm_compute; reflexivity.
  - apply (bool_decide_unpack _). by vm_compute.
Defined.

Lemma suspend_alice_appends :
  ∃ w',
    Service.suspend_client "alice" Fixtures.empty = (Return tt, w')
    ∧ Blocklist.lines w' = Blocklist.lines Fixtures.empty ++ ["alice"]
    ∧ ∀ path, path ≠ Service.BLOCKLIST_PATH → fs w' !! path = fs Fixtures.empty !! path.
Proof. apply (suspend_client_appends "alice" Fixtures.empty). reflexivity. Defined.

Lemma suspend_then_unsuspend_bob :
  ∃ w',
    (Service.suspend_client "bob" ;; Service.unsuspend_client "bob") Fixtures.with_alice
      = (Return tt, w')
    ∧ Blocklist.lines w'
        = filter (λ line, line ≠ "bob") (Blocklist.lines Fixtures.with_alice)
    ∧ ("bob" ∉ Blocklist.lines Fixtures.with_alice →
       Blocklist.lines w' = Blocklist.lines Fixtures.with_alice).
Proof. apply (suspend_then_unsuspend "bob" Fixtures.with_alice). reflexivity. Defined.

Lemma replay_three_calls :
  let ops := [Spec.Suspend "alice"; Spec.Suspend "bob"; Spec.Unsuspend "alice"] in
  ∃ w',
    run_ops ops Fixtures.empty = (Return tt, w')
    ∧ Blocklist.lines w' = Blocklist.replay_from (Blocklist.lines Fixtures.empty) ops
    ∧ spawned w' = spawned Fixtures.empty
    ∧ ∀ path, path ≠ Service.BLOCKLIST_PATH → fs w' !! path = fs Fixtures.empty !! path.
Proof.
  apply (run_ops_replays
           [Spec.Suspend "alice"; Spec.Suspend "bob"; Spec.Unsuspend "alice"]
           Fixtures.empty).
  intros x Hx.
  apply elem_of_cons in Hx as [[= ->]|Hx]; [reflexivity|].
  apply elem_of_cons in Hx as [[= ->]|Hx]; [reflexivity|].
  apply elem_of_cons in Hx as [Hx|Hx]; [discriminate|].
  by apply elem_of_nil in Hx.
Defined.

Lemma replay_three_calls_as_a_set :
  let ops := [Spec.Suspend "alice"; Spec.Suspend "bob"; Spec.Unsuspend "alice"] in
  Blocklist.suspends_absent (Blocklist.lines Fixtures.empty) ops = true
  ∧ ∃ w',
      run_ops ops Fixtures.empty = (Return tt, w')
      ∧ Blocklist.lines w' = foldl Spec.apply (Blocklist.lines Fixtures.empty) ops
      ∧ (fs Fixtures.empty !! Service.BLOCKLIST_PATH = None →
         Blocklist.lines w' = Spec.replay ops)
      ∧ (NoDup (Blocklist.lines Fixtures.empty) → NoDup (Blocklist.lines w')).
Proof.
  split; [vm_compute; reflexivity|].
  apply (run_ops_set_semantics
           [Spec.Suspend "alice"; Spec.Suspend "bob"; Spec.Unsuspend "alice"]
           Fixtures.empty); [|vm_compute; reflexivity].
  intros x Hx.
  apply elem_of_cons in Hx as [[= ->]|Hx]; [reflexivity|].
  apply elem_of_cons in Hx as [[= ->]|Hx]; [reflexivity|].
  apply elem_of_cons in Hx as [Hx|Hx]; [discriminate|].
  by apply elem_of_nil in Hx.
Defined.

Lemma suspend_bob_then_list :
  ∃ w',
    (Service.suspend_client "bob" ;; Service.list_blocked) Fixtures.with_alice
      = (Return (Blocklist.lines Fixtures.with_alice ++ ["bob"]), w').
Proof.
  apply (suspend_then_list_blocked "bob" Fixtures.with_alice); reflexivity.
Defined.

(** Revoking "alice" on the backend that issues, revokes and lists. *)
Lemma revoke_alice_clears_suspension :
  Backend.revocation Fixtures.easyrsa "alice" (fs Fixtures.with_alice)
    = Backend.BackendDone (<[Backend.crl_src := "CRL"]> (fs Fixtures.with_alice))
  ∧ ∃ w',
      Service.revoke_client Fixtures.easyrsa "alice" Fixtures.with_alice = (Return tt, w')
      ∧ "alice" ∉ Blocklist.lines w'.
Proof.
  split; [vm_compute; reflexivity|].
  apply (revoke_client_clears_suspension Fixtures.easyrsa "alice" Fixtures.with_alice
           (<[Backend.crl_src := "CRL"]> (fs Fixtures.with_alice)) "CRL");
    vm_compute; reflexivity.
Defined.

Lemma revoke_alice_aftermath :
  ∃ w',
    Service.revoke_client Fixtures.easyrsa "alice" Fixtures.with_alice = (Return tt, w')
    ∧ fs w' !! Service.CRL_PATH = Some "CRL"
    ∧ fs w' !! (Service.OUTPUT_DIR </> ("alice" +:+ ".ovpn")) = None
    ∧ fs w' !! (Service.EASYRSA_PATH </> "pki" </> "issued" </> ("alice" +:+ ".crt")) = None
    ∧ fs w' !! (Service.EASYRSA_PATH </> "pki" </> "private" </> ("alice" +:+ ".key"))
        = <[Backend.crl_src := "CRL"]> (fs Fixtures.with_alice)
            !! (Service.EASYRSA_PATH </> "pki" </> "private" </> ("alice" +:+ ".key")).
Proof.
  apply (revoke_client_aftermath Fixtures.easyrsa "alice" Fixtures.with_alice
           (<[Backend.crl_src := "CRL"]> (fs Fixtures.with_alice)) "CRL");
    vm_compute; reflexivity.
Defined.

Lemma render_padded_example :
  Service.render Service.TLS_KEY ("T" +:+ (Py.nl +:+ Py.nl))
    (" " +:+ "X" +:+ Py.nl) ("" +:+ "X" +:+ " ") (Py.nl +:+ "X" +:+ "") (" " +:+ "X" +:+ " ")
  = Service.render Service.TLS_KEY "T" "X" "X" "X" "X".
Proof.
  apply (render_ignores_padding Service.TLS_KEY "T" "X" "X" "X" "X"
           (Py.nl +:+ Py.nl) " " Py.nl "" " " Py.nl "" " " " ").
  repeat constructor.
Defined.

Lemma right_key_reaches_the_endpoint :
  Api.depends_get_api_key "secret" (Api.mkRequest (Some "secret"))
    Service.list_blocked Fixtures.with_alice
  = Service.list_blocked Fixtures.with_alice.
Proof.
  apply (depends_admits_configured_key "secret" (Api.mkRequest (Some "secret"))
           Service.list_blocked Fixtures.with_alice); [discriminate|reflexivity].
Defined.

(** "carol" was never issued; suspending her through the API succeeds. *)
Lemma suspend_routes_answer_for_carol :
  (∃ w', Api.POST_suspend "secret" Fixtures.str_exn (Api.mkRequest (Some "secret"))
           "carol" Fixtures.server
         = (Return (Api.mkClientResponse "carol"
                      ("Client " +:+ "carol" +:+ " suspended successfully") None), w'))
  ∧ (∃ w', Api.POST_unsuspend "secret" Fixtures.str_exn (Api.mkRequest (Some "secret"))
             "carol" Fixtures.server
           = (Return (Api.mkClientResponse "carol"
                        ("Client " +:+ "carol" +:+ " unsuspended successfully") None), w')).
Proof.
  apply (suspend_routes_always_answer "secret" Fixtures.str_exn
           (Api.mkRequest (Some "secret")) "carol" Fixtures.server);
    [discriminate|reflexivity].
Defined.

Lemma download_after_issuing_alice :
  let issued := Service.generate_client Fixtures.easyrsa Service.TLS_KEY "alice" false
                  Fixtures.server in
  issued.1 = Return (Fixtures.ovpn "alice")
  ∧ ∃ w2,
      Api.download_client_config "alice" issued.2
        = (Return (Api.mkFileResponse (Fixtures.ovpn "alice") ("alice" +:+ ".ovpn")
                     "application/octet-stream"), w2)
      ∧ fs w2 = fs issued.2.
Proof.
  cbv zeta. split; [vm_compute; reflexivity|].
  apply (download_after_generate Fixtures.easyrsa Service.TLS_KEY "alice" false
           Fixtures.server (Fixtures.ovpn "alice")).
  vm_compute; reflexivity.
Defined.

Lemma download_after_revoking_alice :
  let revoked := Service.revoke_client Fixtures.easyrsa "alice" Fixtures.with_alice in
  revoked.1 = Return tt
  ∧ ∃ w2,
      Api.download_client_config "alice" revoked.2
        = (Raise (HTTPException 404 ("Config for " +:+ "alice" +:+ " not found")), w2)
      ∧ fs w2 = fs revoked.2.
Proof.
  cbv zeta. split; [vm_compute; reflexivity|].
  apply (download_after_revoke Fixtures.easyrsa "alice" Fixtures.with_alice).
  vm_compute; reflexivity.
Defined.

Lemma issue_alice_writes_render :
  ∃ w',
    Service.generate_client Fixtures.easyrsa Service.TLS_KEY "alice" false Fixtures.server
      = (Return (Service.OUTPUT_DIR </> ("alice" +:+ ".ovpn")), w')
    ∧ fs w' !! (Service.OUTPUT_DIR </> ("alice" +:+ ".ovpn")) =
        Some (Service.render Service.TLS_KEY
                (Py.universal_newlines ("T" +:+ Py.nl)) (Py.universal_newlines "X")
                (Py.universal_newlines "CERT alice") (Py.universal_newlines "KEY alice")
                (Py.universal_newlines "X")).
Proof.
  apply (generate_client_renders_inputs Fixtures.easyrsa Service.TLS_KEY "alice" false
           Fixtures.server (mkCompleted 0 "" "")
           (<[Fixtures.key "alice" := "KEY alice"]>
              (<[Fixtures.crt "alice" := "CERT alice"]> (fs Fixtures.server))));
    vm_compute; reflexivity.
Defined.

(** On a machine without Easy-RSA, issuing and revoking raise
    [FileNotFoundError] and leave the world as it was. *)
Lemma issue_and_revoke_without_easyrsa :
  Service.generate_client Fixtures.absent Service.TLS_KEY "alice" false Fixtures.server
    = (Raise (FileNotFoundError Service.EASYRSA_BIN), Fixtures.server)
  ∧ Service.revoke_client Fixtures.absent "alice" Fixtures.with_alice
    = (Raise (FileNotFoundError Service.EASYRSA_BIN), Fixtures.with_alice).
Proof. split; vm_compute; reflexivity. Qed.

(** A name with a NUL character stops the launch: [ValueError], nothing
    run, nothing changed. *)
Lemma issue_and_revoke_name_with_nul :
  let name := String "000"%char "alice" in
  Service.generate_client Fixtures.easyrsa Service.TLS_KEY name false Fixtures.server
    = (Raise (ValueError "embedded null byte"), Fixtures.server)
  ∧ Service.revoke_client Fixtures.easyrsa name Fixtures.with_alice
    = (Raise (ValueError "embedded null byte"), Fixtures.with_alice).
Proof. cbv zeta. split; vm_compute; reflexivity. Qed.

Lemma unset_key_lets_intruder_list :
  Api.depends_get_api_key "" (Api.mkRequest (Some "intruder"))
    Service.list_blocked Fixtures.with_alice
  = Service.list_blocked
      (mkWorld (fs Fixtures.with_alice)
         (log Fixtures.with_alice
          ++ [(WARNING, "No API_KEY set - running without authentication")])
         (spawned Fixtures.with_alice)).
Proof.
  apply (unset_key_skips_the_check (Api.mkRequest (Some "intruder"))
           Service.list_blocked "intruder" Fixtures.with_alice);
    [reflexivity|discriminate].
Defined.

(** Issuing the name "/tmp/x" puts the profile at "/tmp/x.ovpn". *)
Lemma issue_absolute_name :
  let issued := Service.generate_client Fixtures.easyrsa Service.TLS_KEY "/tmp/x" false
                  Fixtures.server in
  issued.1 = Return "/tmp/x.ovpn"
  ∧ "/tmp/x.ovpn" = Pathlib.Path ("/tmp/x" +:+ ".ovpn")
  ∧ is_Some (fs issued.2 !! Pathlib.Path ("/tmp/x" +:+ ".ovpn")).
Proof.
  cbv zeta. split; [vm_compute; reflexivity|].
  apply (absolute_name_leaves_output_dir Fixtures.easyrsa Service.TLS_KEY "/tmp/x" false
           Fixtures.server "/tmp/x.ovpn"); vm_compute; reflexivity.
Defined.
